(** * Environment setup agent: README interpretation, tool detection,
      project discovery and tool installation

    A shallow embedding of [environment_setup_agent.py] (class
    [EnvironmentSetupAgent]) together with the properties its specification
    states about it.

    Modelling conventions.
    - Python [str] values are [string]s of 7-bit characters; [str.lower] and
      [str.strip] are given on that range (characters above 127 are left
      alone and are not white space).
    - The tree that [BeautifulSoup(markdown.markdown(text), 'html.parser')]
      builds is a rose tree of [Tag]s and [NavigableString]s; the two
      libraries themselves are outside the program.
    - [re.search(pattern, text, re.IGNORECASE)] is a small backtracking
      matcher over the constructs the fifteen patterns use.
    - [subprocess.run] is a function of the command and of the state of the
      machine; every call is recorded in a trace.
    - The GitHub repository is a listing plus a fallible file lookup.
    - [print] calls are not modelled, apart from the guide and the message
      that [setup_environment_for_project] ends with.
    - The menus of [run_interactive] are terminal interaction; its branches
      are given once the operator has chosen, and [main] takes the whole
      session as a function of the credentials and of the input. *)

From Stdlib Require Import String Ascii List Bool Arith ZArith Lia.
From Stdlib Require Import Permutation Sorted.
Import ListNotations.
Open Scope string_scope.
Open Scope list_scope.
Set Warnings "-register-all".

(* ================================================================= *)
(** ** Python string operations *)

Module PyStr.

(** [c.lower()] for one character. *)
Definition lower_ascii (c : ascii) : ascii :=
  let n := nat_of_ascii c in
  if ((65 <=? n) && (n <=? 90))%nat then ascii_of_nat (n + 32) else c.

(** [s.lower()]. *)
Fixpoint lower (s : string) : string :=
  match s with
  | EmptyString => EmptyString
  | String c rest => String (lower_ascii c) (lower rest)
  end.

(** [c.isspace()]: tab, line feed, vertical tab, form feed, carriage
    return, the four separators 28..31 and the blank. *)
Definition isspace (c : ascii) : bool :=
  let n := nat_of_ascii c in
  (((9 <=? n) && (n <=? 13)) || ((28 <=? n) && (n <=? 32)))%nat.

Fixpoint lstrip (s : string) : string :=
  match s with
  | EmptyString => EmptyString
  | String c rest => if isspace c then lstrip rest else s
  end.

Fixpoint rstrip (s : string) : string :=
  match s with
  | EmptyString => EmptyString
  | String c rest =>
      match rstrip rest with
      | EmptyString => if isspace c then EmptyString else String c EmptyString
      | kept => String c kept
      end
  end.

(** [s.strip()]. *)
Definition strip (s : string) : string := rstrip (lstrip s).

(** [text.startswith(term)]. *)
Fixpoint startswith (term text : string) : bool :=
  match term, text with
  | EmptyString, _ => true
  | String _ _, EmptyString => false
  | String a term', String b text' => Ascii.eqb a b && startswith term' text'
  end.

(** [term in text] on strings: [term] occurs at some offset of [text]. *)
Fixpoint str_in (term text : string) : bool :=
  if startswith term text then true
  else match text with
       | EmptyString => false
       | String _ rest => str_in term rest
       end.

(** [any(term in text for term in terms)]. *)
Definition any_in (terms : list string) (text : string) : bool :=
  existsb (fun term => str_in term text) terms.

(** The declarative reading of [term in text]. *)
Definition occurs_in (term text : string) : Prop :=
  exists before after, text = (before ++ term ++ after)%string.

End PyStr.
Import PyStr.

(* ================================================================= *)
(** ** The parsed document *)

(** A node of the BeautifulSoup tree.  A [Tag] has a lower-case name and
    its children; a [NavigableString] is a piece of text, whose [name] is
    [None]. *)
Inductive Node : Type :=
| Tag (name : string) (contents : list Node)
| NavigableString (s : string).

(** The top-level [BeautifulSoup] object, as the list of its children. *)
Definition Soup : Type := list Node.

(** [node.name in names]; a [NavigableString] has no name. *)
Definition name_in (node : Node) (names : list string) : bool :=
  match node with
  | Tag name _ => existsb (String.eqb name) names
  | NavigableString _ => false
  end.

Definition contents_of (node : Node) : list Node :=
  match node with
  | Tag _ contents => contents
  | NavigableString _ => []
  end.

(** [node.text]: every string below the node, in document order. *)
Fixpoint text (node : Node) : string :=
  match node with
  | NavigableString s => s
  | Tag _ contents =>
      (fix join (l : list Node) : string :=
         match l with
         | [] => EmptyString
         | child :: rest => (text child ++ join rest)%string
         end) contents
  end.

(** The matches of [find_all(names)] below one node, in document order,
    each with its [next_siblings]. *)
Fixpoint find_all_node (names : list string) (node : Node)
    (next_siblings : list Node) : list (Node * list Node) :=
  match node with
  | NavigableString _ => []
  | Tag name contents =>
      (if existsb (String.eqb name) names then [(node, next_siblings)] else [])
      ++ (fix below (l : list Node) : list (Node * list Node) :=
            match l with
            | [] => []
            | child :: rest => find_all_node names child rest ++ below rest
            end) contents
  end.

(** [find_all(names)] over a list of sibling nodes and all they contain. *)
Fixpoint find_all_siblings (names : list string) (l : list Node)
    : list (Node * list Node) :=
  match l with
  | [] => []
  | child :: rest => find_all_node names child rest ++ find_all_siblings names rest
  end.

(** [soup.find_all(names)]. *)
Definition find_all (names : list string) (soup : list Node) : list Node :=
  map fst (find_all_siblings names soup).

(* ================================================================= *)
(** ** [parse_readme]: the section extractor *)

Record SetupInfo : Type := {
  prerequisites : list string;
  environment_setup : list string;
  database_setup : list string;
  running_instructions : list string;
  ide_setup : list string;
  detected_tools : list string
}.

(** The dictionary [parse_readme] starts from; ["detected_tools"] is only
    set at the end. *)
Definition empty_setup_info : SetupInfo :=
  {| prerequisites := []; environment_setup := []; database_setup := [];
     running_instructions := []; ide_setup := []; detected_tools := [] |}.

(** [setup_info[key].extend(content)], one definition per key. *)
Definition extend_prerequisites (i : SetupInfo) (content : list string) :=
  {| prerequisites := prerequisites i ++ content;
     environment_setup := environment_setup i;
     database_setup := database_setup i;
     running_instructions := running_instructions i;
     ide_setup := ide_setup i; detected_tools := detected_tools i |}.

Definition extend_environment_setup (i : SetupInfo) (content : list string) :=
  {| prerequisites := prerequisites i;
     environment_setup := environment_setup i ++ content;
     database_setup := database_setup i;
     running_instructions := running_instructions i;
     ide_setup := ide_setup i; detected_tools := detected_tools i |}.

Definition extend_database_setup (i : SetupInfo) (content : list string) :=
  {| prerequisites := prerequisites i;
     environment_setup := environment_setup i;
     database_setup := database_setup i ++ content;
     running_instructions := running_instructions i;
     ide_setup := ide_setup i; detected_tools := detected_tools i |}.

Definition extend_running_instructions (i : SetupInfo) (content : list string) :=
  {| prerequisites := prerequisites i;
     environment_setup := environment_setup i;
     database_setup := database_setup i;
     running_instructions := running_instructions i ++ content;
     ide_setup := ide_setup i; detected_tools := detected_tools i |}.

Definition extend_ide_setup (i : SetupInfo) (content : list string) :=
  {| prerequisites := prerequisites i;
     environment_setup := environment_setup i;
     database_setup := database_setup i;
     running_instructions := running_instructions i;
     ide_setup := ide_setup i ++ content; detected_tools := detected_tools i |}.

Definition set_detected_tools (i : SetupInfo) (tools : list string) :=
  {| prerequisites := prerequisites i;
     environment_setup := environment_setup i;
     database_setup := database_setup i;
     running_instructions := running_instructions i;
     ide_setup := ide_setup i; detected_tools := tools |}.

(** The tag names of [soup.find_all(['h1', 'h2', 'h3', 'h4'])] and of the
    [break] test of every content loop. *)
Definition heading_names : list string := ["h1"; "h2"; "h3"; "h4"].

(** [for li in sibling.find_all('li'): content.append(li.text.strip())],
    as the entries appended. *)
Definition li_entries (sibling : Node) : list string :=
  map (fun li => strip (text li)) (find_all ["li"] (contents_of sibling)).

(** The content loop of the prerequisites branch (lines 210-218): [ul] and
    [p] siblings only. *)
Fixpoint prerequisites_content (next_siblings : list Node)
    (content : list string) : list string :=
  match next_siblings with
  | [] => content
  | sibling :: rest =>
      if name_in sibling heading_names then content
      else if name_in sibling ["ul"] then
        prerequisites_content rest (content ++ li_entries sibling)
      else if name_in sibling ["p"] then
        prerequisites_content rest (content ++ [strip (text sibling)])
      else prerequisites_content rest content
  end.

(** The content loop of the four other branches (lines 223-231, 236-244,
    249-257 and 262-270, which are the same text): [p], [pre] and [code]
    siblings, then [ul]. *)
Fixpoint section_content (next_siblings : list Node)
    (content : list string) : list string :=
  match next_siblings with
  | [] => content
  | sibling :: rest =>
      if name_in sibling heading_names then content
      else if name_in sibling ["p"; "pre"; "code"] then
        section_content rest (content ++ [strip (text sibling)])
      else if name_in sibling ["ul"] then
        section_content rest (content ++ li_entries sibling)
      else section_content rest content
  end.

Definition prerequisites_terms : list string :=
  ["prerequisite"; "requirement"; "depend"; "tool"; "software"].
Definition setup_terms : list string :=
  ["setup"; "install"; "configur"; "environ"].
Definition database_terms : list string := ["database"; "db"; "data"].
Definition run_terms : list string := ["run"; "start"; "execute"].
Definition ide_terms : list string :=
  ["ide"; "intellij"; "eclipse"; "vscode"; "editor"].

(** The body of [for heading in soup.find_all([...])]: the
    [if]/[elif] chain of lines 206-272. *)
Definition parse_heading (setup_info : SetupInfo)
    (found : Node * list Node) : SetupInfo :=
  let (heading, next_siblings) := found in
  let heading_text := lower (text heading) in
  if any_in prerequisites_terms heading_text then
    extend_prerequisites setup_info (prerequisites_content next_siblings [])
  else if any_in setup_terms heading_text then
    extend_environment_setup setup_info (section_content next_siblings [])
  else if any_in database_terms heading_text then
    extend_database_setup setup_info (section_content next_siblings [])
  else if any_in run_terms heading_text then
    extend_running_instructions setup_info (section_content next_siblings [])
  else if any_in ide_terms heading_text then
    extend_ide_setup setup_info (section_content next_siblings [])
  else setup_info.

(** Lines 196-272 of [parse_readme]: the loop over the headings of the
    soup. *)
Definition parse_soup (soup : Soup) : SetupInfo :=
  fold_left parse_heading (find_all_siblings heading_names soup)
            empty_setup_info.

(** The five buckets, for stating properties uniformly. *)
Inductive Category : Type :=
| Prerequisites | EnvironmentSetup | DatabaseSetup | RunningInstructions
| IdeSetup.

Definition bucket (c : Category) (i : SetupInfo) : list string :=
  match c with
  | Prerequisites => prerequisites i
  | EnvironmentSetup => environment_setup i
  | DatabaseSetup => database_setup i
  | RunningInstructions => running_instructions i
  | IdeSetup => ide_setup i
  end.

(** Which branch of the chain a lower-cased heading text takes. *)
Definition classify (heading_text : string) : option Category :=
  if any_in prerequisites_terms heading_text then Some Prerequisites
  else if any_in setup_terms heading_text then Some EnvironmentSetup
  else if any_in database_terms heading_text then Some DatabaseSetup
  else if any_in run_terms heading_text then Some RunningInstructions
  else if any_in ide_terms heading_text then Some IdeSetup
  else None.

(** The content loop a branch runs. *)
Definition content_of (c : Category) (next_siblings : list Node)
    : list string :=
  match c with
  | Prerequisites => prerequisites_content next_siblings []
  | _ => section_content next_siblings []
  end.

(** What one sibling adds to [content] in the loop of a branch. *)
Definition contribution (c : Category) (sibling : Node) : list string :=
  match c with
  | Prerequisites =>
      if name_in sibling ["ul"] then li_entries sibling
      else if name_in sibling ["p"] then [strip (text sibling)]
      else []
  | _ =>
      if name_in sibling ["p"; "pre"; "code"] then [strip (text sibling)]
      else if name_in sibling ["ul"] then li_entries sibling
      else []
  end.

(** A node occurs in a forest with the given following siblings. *)
Inductive occurs (node : Node) (next_siblings : list Node)
    : list Node -> Prop :=
| occurs_here rest :
    rest = next_siblings -> occurs node next_siblings (node :: rest)
| occurs_below name contents rest :
    occurs node next_siblings contents ->
    occurs node next_siblings (Tag name contents :: rest)
| occurs_later other rest :
    occurs node next_siblings rest ->
    occurs node next_siblings (other :: rest).

Definition category_eqb (a b : Category) : bool :=
  match a, b with
  | Prerequisites, Prerequisites | EnvironmentSetup, EnvironmentSetup
  | DatabaseSetup, DatabaseSetup | RunningInstructions, RunningInstructions
  | IdeSetup, IdeSetup => true
  | _, _ => false
  end.

(** [setup_info[key].extend(content)] for the key of a category. *)
Definition extend (c : Category) (i : SetupInfo) (content : list string)
    : SetupInfo :=
  match c with
  | Prerequisites => extend_prerequisites i content
  | EnvironmentSetup => extend_environment_setup i content
  | DatabaseSetup => extend_database_setup i content
  | RunningInstructions => extend_running_instructions i content
  | IdeSetup => extend_ide_setup i content
  end.

(** What a heading found by the scan adds to bucket [c]. *)
Definition entries_under (c : Category) (found : Node * list Node)
    : list string :=
  match classify (lower (text (fst found))) with
  | Some c' => if category_eqb c' c then content_of c (snd found) else []
  | None => []
  end.

(** The siblings left after a captured region: none, or a heading of one
    of the four names first. *)
Definition ends_capture (rest : list Node) : Prop :=
  match rest with
  | [] => True
  | stop :: _ => name_in stop heading_names = true
  end.




(** The last character of a string, which a following match sees as the
    character before it. *)
Fixpoint last_char (s : string) : option ascii :=
  match s with
  | EmptyString => None
  | String c EmptyString => Some c
  | String _ rest => last_char rest
  end.


(* ================================================================= *)
(** ** Regular expressions, as [detect_tools] uses them *)

Module Re.

(** The constructs of the fifteen patterns. *)
Inductive regex : Type :=
| Eps                            (* the empty pattern *)
| Chr (c : ascii)                (* a literal character *)
| OneOf (cs : list ascii)        (* [...] *)
| Boundary                       (* \b *)
| Cat (r1 r2 : regex)            (* r1 r2 *)
| Alt (r1 r2 : regex)            (* r1|r2 *)
| Opt (r : regex).               (* (?:r)? *)

(** [\w]: a letter, a digit or the underscore. *)
Definition is_word (c : ascii) : bool :=
  let n := nat_of_ascii c in
  (((48 <=? n) && (n <=? 57)) || ((65 <=? n) && (n <=? 90))
   || ((97 <=? n) && (n <=? 122)) || (n =? 95))%nat.

Definition word_before (prev : option ascii) : bool :=
  match prev with Some c => is_word c | None => false end.

Definition word_after (s : string) : bool :=
  match s with String c _ => is_word c | EmptyString => false end.

(** Two characters are the same under [re.IGNORECASE]. *)
Definition same_char (a b : ascii) : bool :=
  Ascii.eqb (lower_ascii a) (lower_ascii b).

(** Backtracking match of [r] at the head of [s], the character before
    being [prev]; [k] receives what is left. *)
Fixpoint match_at (r : regex) (prev : option ascii) (s : string)
    (k : option ascii -> string -> bool) : bool :=
  match r with
  | Eps => k prev s
  | Chr c =>
      match s with
      | String x rest => same_char x c && k (Some x) rest
      | EmptyString => false
      end
  | OneOf cs =>
      match s with
      | String x rest => existsb (same_char x) cs && k (Some x) rest
      | EmptyString => false
      end
  | Boundary =>
      if xorb (word_before prev) (word_after s) then k prev s else false
  | Cat r1 r2 => match_at r1 prev s (fun prev' s' => match_at r2 prev' s' k)
  | Alt r1 r2 => match_at r1 prev s k || match_at r2 prev s k
  | Opt r1 => match_at r1 prev s k || k prev s
  end.

(** Scan for a match starting at any offset. *)
Fixpoint search_from (r : regex) (prev : option ascii) (s : string) : bool :=
  if match_at r prev s (fun _ _ => true) then true
  else match s with
       | EmptyString => false
       | String c rest => search_from r (Some c) rest
       end.

(** [bool(re.search(r, text, re.IGNORECASE))]. *)
Definition search (r : regex) (text : string) : bool :=
  search_from r None text.

(** A pattern that is a run of literal characters. *)
Fixpoint lit (s : string) : regex :=
  match s with
  | EmptyString => Eps
  | String c rest => Cat (Chr c) (lit rest)
  end.

(** [\bs\b]. *)
Definition word (s : string) : regex := Cat Boundary (Cat (lit s) Boundary).

End Re.
Import Re.

(* ================================================================= *)
(** ** [detect_tools] *)

(** The dictionary [tool_patterns], in insertion order. *)
Definition tool_patterns : list (string * regex) :=
  [ ("java",           (* \bjava\b|\bjdk\b|\bjre\b *)
       Alt (word "java") (Alt (word "jdk") (word "jre")));
    ("maven",          (* \bmaven\b|\bmvn\b *)
       Alt (word "maven") (word "mvn"));
    ("gradle",         (* \bgradle\b *)
       word "gradle");
    ("node",           (* \bnode(?:js)?\b *)
       Cat Boundary (Cat (lit "node") (Cat (Opt (lit "js")) Boundary)));
    ("npm",            (* \bnpm\b *)
       word "npm");
    ("python3",        (* \bpython(?:3)?\b|\bpip(?:3)?\b *)
       Alt (Cat Boundary (Cat (lit "python") (Cat (Opt (lit "3")) Boundary)))
           (Cat Boundary (Cat (lit "pip") (Cat (Opt (lit "3")) Boundary))));
    ("docker",         (* \bdocker\b *)
       word "docker");
    ("docker-compose", (* \bdocker[ -]compose\b *)
       Cat Boundary
         (Cat (lit "docker")
            (Cat (OneOf [" "%char; "-"%char]) (Cat (lit "compose") Boundary))));
    ("git",            (* \bgit\b *)
       word "git");
    ("mongodb",        (* \bmongo(?:db)?\b *)
       Cat Boundary (Cat (lit "mongo") (Cat (Opt (lit "db")) Boundary)));
    ("postgresql",     (* \bpostgre(?:s|sql)?\b *)
       Cat Boundary
         (Cat (lit "postgre")
            (Cat (Opt (Alt (lit "s") (lit "sql"))) Boundary)));
    ("mysql",          (* \bmysql\b *)
       word "mysql");
    ("redis",          (* \bredis\b *)
       word "redis");
    ("vscode",         (* \bvs ?code\b|\bvisual studio code\b *)
       Alt (Cat Boundary
              (Cat (lit "vs") (Cat (Opt (Chr " ")) (Cat (lit "code") Boundary))))
           (word "visual studio code"));
    ("intellij-idea",  (* \bintellij\b|\bidea\b *)
       Alt (word "intellij") (word "idea")) ].

(** [for tool, pattern in tool_patterns.items(): if re.search(...):
    tools.append(tool)], with the accumulator [tools]. *)
Fixpoint detect_loop (patterns : list (string * regex))
    (readme_content : string) (tools : list string) : list string :=
  match patterns with
  | [] => tools
  | (tool, pattern) :: rest =>
      if search pattern readme_content
      then detect_loop rest readme_content (tools ++ [tool])
      else detect_loop rest readme_content tools
  end.

Definition detect_tools (readme_content : string) : list string :=
  detect_loop tool_patterns readme_content [].

(** [parse_readme]: [markdown_soup] stands for
    [BeautifulSoup(markdown.markdown(_), 'html.parser')]. *)
Definition parse_readme (markdown_soup : string -> Soup)
    (readme_content : string) : SetupInfo :=
  set_detected_tools (parse_soup (markdown_soup readme_content))
                     (detect_tools readme_content).

(* ================================================================= *)
(** ** The tool registry *)

(** One entry of [tools_cache["general"]]; [dependencies] is [None] when
    the key is absent. *)
Record ToolInfo : Type := {
  installation : string;
  verification : string;
  dependencies : option (list string)
}.

(** The double-quote character, for the commands that contain it. *)
Definition dq : string := String (ascii_of_nat 34) EmptyString.

(** [self.tools_cache["general"]], in insertion order. *)
Definition tools_cache : list (string * ToolInfo) :=
  [ ("git",
     {| installation := "sudo apt-get update && sudo apt-get install -y git";
        verification := "git --version";
        dependencies := None |});
    ("docker",
     {| installation := ("
                        sudo apt-get update
                        sudo apt-get install -y apt-transport-https ca-certificates curl software-properties-common
                        curl -fsSL https://download.docker.com/linux/ubuntu/gpg | sudo apt-key add -
                        sudo add-apt-repository " ++ dq ++ "deb [arch=amd64] https://download.docker.com/linux/ubuntu $(lsb_release -cs) stable" ++ dq ++ "
                        sudo apt-get update
                        sudo apt-get install -y docker-ce docker-ce-cli containerd.io
                        sudo usermod -aG docker $USER
                    ")%string;
        verification := "docker --version";
        dependencies := None |});
    ("docker-compose",
     {| installation := ("
                        sudo curl -L " ++ dq ++ "https://github.com/docker/compose/releases/download/v2.18.1/docker-compose-$(uname -s)-$(uname -m)" ++ dq ++ " -o /usr/local/bin/docker-compose
                        sudo chmod +x /usr/local/bin/docker-compose
                    ")%string;
        verification := "docker-compose --version";
        dependencies := None |});
    ("nvm",
     {| installation := ("
                        curl -o- https://raw.githubusercontent.com/nvm-sh/nvm/v0.39.3/install.sh | bash
                        export NVM_DIR=" ++ dq ++ "$HOME/.nvm" ++ dq ++ "
                        [ -s " ++ dq ++ "$NVM_DIR/nvm.sh" ++ dq ++ " ] && \. " ++ dq ++ "$NVM_DIR/nvm.sh" ++ dq ++ "
                    ")%string;
        verification := "nvm --version";
        dependencies := None |});
    ("node",
     {| installation := "nvm install --lts";
        verification := "node --version";
        dependencies := Some ["nvm"] |});
    ("npm",
     {| installation := EmptyString;
        verification := "npm --version";
        dependencies := Some ["node"] |});
    ("java",
     {| installation := "sudo apt-get update && sudo apt-get install -y openjdk-17-jdk";
        verification := "java -version";
        dependencies := None |});
    ("maven",
     {| installation := "sudo apt-get update && sudo apt-get install -y maven";
        verification := "mvn -version";
        dependencies := None |});
    ("gradle",
     {| installation := "
                        wget -q https://services.gradle.org/distributions/gradle-8.3-bin.zip -P /tmp
                        sudo unzip -d /opt/gradle /tmp/gradle-*.zip
                        echo 'export PATH=$PATH:/opt/gradle/gradle-8.3/bin' >> ~/.bashrc
                        export PATH=$PATH:/opt/gradle/gradle-8.3/bin
                    ";
        verification := "gradle -version";
        dependencies := None |});
    ("python3",
     {| installation := "sudo apt-get update && sudo apt-get install -y python3 python3-pip";
        verification := "python3 --version && pip3 --version";
        dependencies := None |});
    ("mongodb",
     {| installation := ("
                        wget -qO - https://www.mongodb.org/static/pgp/server-6.0.asc | sudo apt-key add -
                        echo " ++ dq ++ "deb [ arch=amd64,arm64 ] https://repo.mongodb.org/apt/ubuntu $(lsb_release -cs)/mongodb-org/6.0 multiverse" ++ dq ++ " | sudo tee /etc/apt/sources.list.d/mongodb-org-6.0.list
                        sudo apt-get update
                        sudo apt-get install -y mongodb-org
                        sudo systemctl start mongod
                        sudo systemctl enable mongod
                    ")%string;
        verification := "mongod --version";
        dependencies := None |});
    ("postgresql",
     {| installation := "
                        sudo apt-get update
                        sudo apt-get install -y postgresql postgresql-contrib
                        sudo systemctl start postgresql
                        sudo systemctl enable postgresql
                    ";
        verification := "psql --version";
        dependencies := None |});
    ("mysql",
     {| installation := "
                        sudo apt-get update
                        sudo apt-get install -y mysql-server
                        sudo systemctl start mysql
                        sudo systemctl enable mysql
                        sudo mysql_secure_installation
                    ";
        verification := "mysql --version";
        dependencies := None |});
    ("redis",
     {| installation := "
                        sudo apt-get update
                        sudo apt-get install -y redis-server
                        sudo systemctl start redis
                        sudo systemctl enable redis
                    ";
        verification := "redis-cli --version";
        dependencies := None |});
    ("vscode",
     {| installation := ("
                        wget -qO- https://packages.microsoft.com/keys/microsoft.asc | gpg --dearmor > packages.microsoft.gpg
                        sudo install -D -o root -g root -m 644 packages.microsoft.gpg /etc/apt/keyrings/packages.microsoft.gpg
                        sudo sh -c 'echo " ++ dq ++ "deb [arch=amd64,arm64,armhf signed-by=/etc/apt/keyrings/packages.microsoft.gpg] https://packages.microsoft.com/repos/code stable main" ++ dq ++ " > /etc/apt/sources.list.d/vscode.list'
                        rm -f packages.microsoft.gpg
                        sudo apt update
                        sudo apt install -y code
                    ")%string;
        verification := "code --version";
        dependencies := None |});
    ("intellij-idea",
     {| installation := "
                        sudo snap install intellij-idea-community --classic
                    ";
        verification := "snap info intellij-idea-community";
        dependencies := None |}) ].

(** [name in d] and [d[name]] on a dictionary kept as an association
    list. *)
Fixpoint lookup {A : Type} (key : string) (d : list (string * A))
    : option A :=
  match d with
  | [] => None
  | (k, v) :: rest => if String.eqb key k then Some v else lookup key rest
  end.

(** [list(d.keys())]. *)
Definition keys {A : Type} (d : list (string * A)) : list string :=
  map fst d.

(* ================================================================= *)
(** ** The tool installer *)

(** How a [subprocess.run] call ends. *)
Inductive RunOutcome : Type :=
| Returned (returncode : Z)
| Raised.

(** The commands the agent runs, by purpose and tool. *)
Inductive Event : Type :=
| Verification (tool : string)   (* line 345 ran [verification] of the tool *)
| Installation (tool : string).  (* line 378 ran [installation] of the tool *)

Section Installer.

(** The state of the host, and the host shell. *)
Variable World : Type.
Variable subprocess_run : string -> World -> RunOutcome * World.
(** The registry; the agent's own is [tools_cache]. *)
Variable tools : list (string * ToolInfo).

Record Machine : Type := { world : World; trace : list Event }.

(** Run a command for a purpose, recording it. *)
Definition run (e : Event) (cmd : string) (st : Machine)
    : RunOutcome * Machine :=
  let (outcome, w) := subprocess_run cmd (world st) in
  (outcome, {| world := w; trace := trace st ++ [e] |}).

(** [check_tool_installed] (lines 329-349). *)
Definition check_tool_installed (tool_name : string) (st : Machine)
    : bool * Machine :=
  match lookup tool_name tools with
  | None => (false, st)
  | Some tool_info =>
      let (result, st1) :=
        run (Verification tool_name) (verification tool_info) st in
      match result with
      | Returned returncode => (Z.eqb returncode 0, st1)
      | Raised => (false, st1)
      end
  end.

(** The loop over the dependencies (lines 368-373), the recursive call
    being [install].  [Some true] is the loop running to its end,
    [Some false] the [return False] of line 373, [None] a recursion that
    ran out of depth. *)
Fixpoint install_dependencies
    (install : string -> Machine -> option bool * Machine)
    (deps : list string) (st : Machine) : option bool * Machine :=
  match deps with
  | [] => (Some true, st)
  | dependency :: rest =>
      let (installed, st1) := check_tool_installed dependency st in
      if installed then install_dependencies install rest st1
      else
        match install dependency st1 with
        | (Some true, st2) => install_dependencies install rest st2
        | (Some false, st2) => (Some false, st2)
        | (None, st2) => (None, st2)
        end
  end.

(** [install_tool] (lines 351-387).  [fuel] bounds the depth of the
    recursion through the dependencies; the result is [None] when it is
    exhausted. *)
Fixpoint install_tool (fuel : nat) (tool_name : string) (st : Machine)
    : option bool * Machine :=
  match fuel with
  | O => (None, st)
  | S fuel' =>
      match lookup tool_name tools with
      | None => (Some false, st)
      | Some tool_info =>
          let resolved :=
            match dependencies tool_info with
            | Some deps =>
                install_dependencies (install_tool fuel') deps st
            | None => (Some true, st)
            end in
          match resolved with
          | (Some true, st1) =>
              let (result, st2) :=
                run (Installation tool_name) (installation tool_info) st1 in
              match result with
              | Returned returncode =>
                  if negb (Z.eqb returncode 0) then (Some false, st2)
                  else
                    let (ok, st3) := check_tool_installed tool_name st2 in
                    (Some ok, st3)
              | Raised => (Some false, st2)
              end
          | (Some false, st1) => (Some false, st1)
          | (None, st1) => (None, st1)
          end
      end
  end.

(** The guarded call every caller of [install_tool] makes
    ([if not self.check_tool_installed(tool): self.install_tool(tool)],
    lines 408-410 and 499-500): the tool is verified first and
    [install_tool] runs only when that fails. *)
Definition ensure_installed (fuel : nat) (tool : string) (st : Machine)
    : option bool * Machine :=
  let (installed, st1) := check_tool_installed tool st in
  if installed then (Some true, st1) else install_tool fuel tool st1.

(** The loop of [setup_environment_for_project] over the detected tools
    (lines 407-413); the outcome of each tool is only printed. *)
Fixpoint install_detected_tools (fuel : nat) (detected : list string)
    (st : Machine) : Machine :=
  match detected with
  | [] => st
  | tool :: rest =>
      install_detected_tools fuel rest (snd (ensure_installed fuel tool st))
  end.

End Installer.

Arguments world {World} _.
Arguments trace {World} _.
Arguments Build_Machine {World} _ _.
Arguments run {World} _ _ _ _.
Arguments check_tool_installed {World} _ _ _ _.
Arguments install_dependencies {World} _ _ _ _ _.
Arguments install_tool {World} _ _ _ _ _.
Arguments ensure_installed {World} _ _ _ _ _.
Arguments install_detected_tools {World} _ _ _ _ _.

(** One tool depends, directly or through others, on another. *)
Inductive requires (tools : list (string * ToolInfo))
    : string -> string -> Prop :=
| requires_self tool : requires tools tool tool
| requires_dependency tool tool_info deps dependency other :
    lookup tool tools = Some tool_info ->
    dependencies tool_info = Some deps ->
    In dependency deps ->
    requires tools dependency other ->
    requires tools tool other.

(** A call adds to the trace, and the installation commands it runs are
    those of the tools [allowed]. *)
Definition installs_only {World : Type} (allowed : string -> Prop)
    (f : Machine World -> option bool * Machine World) : Prop :=
  forall st, exists events,
    trace (snd (f st)) = trace st ++ events
    /\ forall x, In (Installation x) events -> allowed x.

(* ================================================================= *)
(** ** Project discovery *)

(** An entry of a directory listing ([ContentFile]). *)
Module ContentFile.
Record t : Type := { type : string; name : string; path : string }.
End ContentFile.

(** A discovered project (the dictionary of lines 171-175). *)
Module Project.
Record t : Type := {
  name : string; path : string; readme_content : string
}.
End Project.

(** What [self.repo.get_contents(path)] does. *)
Inductive Contents : Type :=
| Listing (entries : list ContentFile.t)  (* the path is a directory *)
| File (content : string)                 (* a file, with its base64 body *)
| Failure.                                (* the call raised *)

Section Discovery.

(** The remote repository. *)
Variable get_contents : string -> Contents.
(** [base64.b64decode(_).decode('utf-8')]; [None] when it raises. *)
Variable b64decode_utf8 : string -> option string.

(** The [try] block of lines 169-178 for one directory: the project to
    append, or [None] when anything in the block raised. *)
Definition probe (content : ContentFile.t) : option Project.t :=
  match get_contents (ContentFile.path content ++ "/README.md")%string with
  | File body =>
      match b64decode_utf8 body with
      | Some readme =>
          Some {| Project.name := ContentFile.name content;
                  Project.path := ContentFile.path content;
                  Project.readme_content := readme |}
      | None => None
      end
  | Listing _ => None   (* a list has no [content] attribute *)
  | Failure => None
  end.

(** The loop of lines 167-178, [projects] being [self.projects]. *)
Fixpoint discover_loop (contents : list ContentFile.t)
    (projects : list Project.t) : list Project.t :=
  match contents with
  | [] => projects
  | content :: rest =>
      if String.eqb (ContentFile.type content) "dir" then
        match probe content with
        | Some project => discover_loop rest (projects ++ [project])
        | None => discover_loop rest projects
        end
      else discover_loop rest projects
  end.

(** [discover_projects] (lines 159-180); [None] when listing the root
    raises, which the method does not catch. *)
Definition discover_projects : option (list Project.t) :=
  match get_contents EmptyString with
  | Listing contents => Some (discover_loop contents [])
  | File _ => None
  | Failure => None
  end.

(** A listed entry is a directory holding a readable README.md. *)
Definition has_readme (content : ContentFile.t) : bool :=
  String.eqb (ContentFile.type content) "dir"
  && match probe content with Some _ => true | None => false end.

(** The project made from a listed entry and the text of its README. *)
Definition project_of (content : ContentFile.t) : list Project.t :=
  match probe content with
  | Some project => [project]
  | None => []
  end.

(** The README of a listed entry as the specification has it, written
    without [probe]: the entry is a directory, [<path>/README.md] is
    fetched as a file, and its body decodes; there is none otherwise. *)
Definition readme_of_directory (content : ContentFile.t) : option string :=
  if String.eqb (ContentFile.type content) "dir" then
    match get_contents (ContentFile.path content ++ "/README.md")%string with
    | File body => b64decode_utf8 body
    | Listing _ => None
    | Failure => None
    end
  else None.

(** What discovery should return for a listing: one project for each
    entry that has a README, in the order of the listing. *)
Definition projects_with_readme (contents : list ContentFile.t)
    : list Project.t :=
  flat_map
    (fun content =>
       match readme_of_directory content with
       | Some readme =>
           [ {| Project.name := ContentFile.name content;
                Project.path := ContentFile.path content;
                Project.readme_content := readme |} ]
       | None => []
       end)
    contents.

End Discovery.

(* ================================================================= *)
(** ** Notions for stating further properties *)

(** The siblings a content loop reads: those before the first heading of
    the four names. *)
Fixpoint captured (next_siblings : list Node) : list Node :=
  match next_siblings with
  | [] => []
  | sibling :: rest =>
      if name_in sibling heading_names then [] else sibling :: captured rest
  end.

(** A text of 7-bit characters only, on which [str.lower] and the case
    folding of [re.IGNORECASE] are those of this file. *)
Fixpoint seven_bit (s : string) : bool :=
  match s with
  | EmptyString => true
  | String c rest => (nat_of_ascii c <? 128)%nat && seven_bit rest
  end.

(** The terms of a branch of the chain, and its place in the chain. *)
Definition terms_of (c : Category) : list string :=
  match c with
  | Prerequisites => prerequisites_terms
  | EnvironmentSetup => setup_terms
  | DatabaseSetup => database_terms
  | RunningInstructions => run_terms
  | IdeSetup => ide_terms
  end.

Definition rank (c : Category) : nat :=
  match c with
  | Prerequisites => 0
  | EnvironmentSetup => 1
  | DatabaseSetup => 2
  | RunningInstructions => 3
  | IdeSetup => 4
  end.

(* ================================================================= *)
(** ** Documents, hosts and repositories used in the examples *)

Module Fixtures.

Definition h (level title : string) : Node :=
  Tag level [NavigableString title].
Definition p (s : string) : Node := Tag "p" [NavigableString s].
Definition li (s : string) : Node := Tag "li" [NavigableString s].
Definition nl : Node :=
  NavigableString (String (ascii_of_nat 10) EmptyString).

(** [<ul>\n<li>a</li>\n<li>b</li>\n</ul>], as the markdown library
    renders a bullet list of two items. *)
Definition bullets (a b : string) : Node :=
  Tag "ul" [nl; li a; nl; li b; nl].

(** The rendering of
    [## Prerequisites / - a / - b / ## Setup / - c / - d / ## Run / - e / - f]. *)
Definition three_sections (a b c d e f : string) : Soup :=
  [ h "h2" "Prerequisites"; nl; bullets a b; nl;
    h "h2" "Setup"; nl; bullets c d; nl;
    h "h2" "Run"; nl; bullets e f ].

(** [## Setup] and [## Additional Setup], the second repeating an entry
    of the first. *)
Definition two_setups : Soup :=
  [ h "h2" "Setup"; nl; p "clone the repository"; nl;
    bullets "copy .env" "run make"; nl;
    h "h2" "Additional Setup"; nl; p "run make"; nl ].



(** Headings that are classified through a substring of a word. *)
Definition guide : Soup :=
  [ h "h2" "User Guide"; nl; p "open the project" ].
Definition started : Soup :=
  [ h "h1" "Getting Started"; nl; p "make run" ].

(** A host on which a tool is installed when it is in the world.  A
    verification command succeeds for an installed tool; an installation
    command installs its tool unless the tool is in [broken]. *)
Definition tool_of (select : ToolInfo -> string) (cmd : string)
    : option string :=
  match find (fun entry => String.eqb (select (snd entry)) cmd) tools_cache with
  | Some entry => Some (fst entry)
  | None => None
  end.

Definition host (broken : list string) (cmd : string) (w : list string)
    : RunOutcome * list string :=
  match tool_of verification cmd with
  | Some tool =>
      (Returned (if existsb (String.eqb tool) w then 0 else 127), w)
  | None =>
      match tool_of installation cmd with
      | Some tool =>
          if existsb (String.eqb tool) broken then (Returned 1, w)
          else (Returned 0, tool :: w)
      | None => (Returned 127, w)
      end
  end%Z.

Definition machine (installed : list string) : Machine (list string) :=
  {| world := installed; trace := [] |}.

(** A repository with five top-level directories and a file.  Three of
    the directories hold a README.md; fetching it from the two others
    raises. *)
Definition entry (type name : string) : ContentFile.t :=
  {| ContentFile.type := type; ContentFile.name := name;
     ContentFile.path := name |}.

Definition root : list ContentFile.t :=
  [ entry "dir" "api"; entry "dir" "broken"; entry "file" "LICENSE";
    entry "dir" "web"; entry "dir" "empty"; entry "dir" "worker" ].

Definition repo (path : string) : Contents :=
  if String.eqb path EmptyString then Listing root
  else if String.eqb path "api/README.md" then File "api readme"
  else if String.eqb path "web/README.md" then File "web readme"
  else if String.eqb path "worker/README.md" then File "worker readme"
  else Failure.

(** A decoder that accepts every body. *)
Definition decoded (body : string) : option string := Some body.

End Fixtures.

(* ================================================================= *)
(** ** The rest of the agent *)

(** [d[key] = value] on a dictionary kept as an association list: an
    existing key keeps its place, a new key goes to the end. *)
Fixpoint dict_set {A : Type} (key : string) (value : A)
    (d : list (string * A)) : list (string * A) :=
  match d with
  | [] => [(key, value)]
  | (k, v) :: rest =>
      if String.eqb key k then (k, value) :: rest
      else (k, v) :: dict_set key value rest
  end.

(** [analyze_all_projects] (lines 315-327), [project_info] being the
    dictionary under construction. *)
Fixpoint analyze_loop (markdown_soup : string -> Soup)
    (projects : list Project.t) (project_info : list (string * SetupInfo))
    : list (string * SetupInfo) :=
  match projects with
  | [] => project_info
  | project :: rest =>
      analyze_loop markdown_soup rest
        (dict_set (Project.name project)
                  (parse_readme markdown_soup (Project.readme_content project))
                  project_info)
  end.

Definition analyze_all_projects (markdown_soup : string -> Soup)
    (projects : list Project.t) : list (string * SetupInfo) :=
  analyze_loop markdown_soup projects [].

(** [tool_frequency.get(tool, 0)]. *)
Definition get_count (tool : string) (tool_frequency : list (string * nat))
    : nat :=
  match lookup tool tool_frequency with
  | Some count => count
  | None => 0
  end.

(** The inner loop of lines 517-518 over the tools of one project. *)
Fixpoint count_tools (detected : list string)
    (tool_frequency : list (string * nat)) : list (string * nat) :=
  match detected with
  | [] => tool_frequency
  | tool :: rest =>
      count_tools rest
        (dict_set tool (get_count tool tool_frequency + 1) tool_frequency)
  end.

(** The outer loop of lines 516-518 over [all_projects_info.items()]. *)
Fixpoint count_projects (all_projects_info : list (string * SetupInfo))
    (tool_frequency : list (string * nat)) : list (string * nat) :=
  match all_projects_info with
  | [] => tool_frequency
  | (_, info) :: rest =>
      count_projects rest (count_tools (detected_tools info) tool_frequency)
  end.

(** [sorted(items, key=lambda x: x[1], reverse=True)]: the one stable
    ordering by decreasing count. *)
Fixpoint insert_by_count (item : string * nat) (items : list (string * nat))
    : list (string * nat) :=
  match items with
  | [] => [item]
  | other :: rest =>
      if (snd other <=? snd item)%nat then item :: other :: rest
      else other :: insert_by_count item rest
  end.

Fixpoint sorted_by_count (items : list (string * nat))
    : list (string * nat) :=
  match items with
  | [] => []
  | item :: rest => insert_by_count item (sorted_by_count rest)
  end.

(** The table that "List recommended tools" goes through (lines 513-521):
    each tool with the number of analysed projects that mention it, the
    most used first. *)
Definition recommended_tools (markdown_soup : string -> Soup)
    (projects : list Project.t) : list (string * nat) :=
  sorted_by_count
    (count_projects (analyze_all_projects markdown_soup projects) []).

(** The characters printed by the guide. *)
Definition newline : string := String (ascii_of_nat 10) EmptyString.

Fixpoint repeated (s : string) (n : nat) : string :=
  match n with
  | O => EmptyString
  | S n' => (s ++ repeated s n')%string
  end.

(** [for item in items: print(f"- {item}")], as the lines printed. *)
Definition item_lines (items : list string) : list string :=
  map (fun item => ("- " ++ item)%string) items.

(** The guide printed by [setup_environment_for_project] (lines 416-440),
    one string for each [print]. *)
Definition setup_guide (project_name : string) (setup_info : SetupInfo)
    : list string :=
  [ (newline ++ repeated "=" 50)%string;
    ("Setup Guide for " ++ project_name)%string;
    repeated "=" 50 ]
  ++ [ (newline ++ "Prerequisites:")%string ]
  ++ item_lines (prerequisites setup_info)
  ++ [ (newline ++ "Environment Setup:")%string ]
  ++ item_lines (environment_setup setup_info)
  ++ match database_setup setup_info with
     | [] => []
     | items => (newline ++ "Database Setup:")%string :: item_lines items
     end
  ++ [ (newline ++ "Running Instructions:")%string ]
  ++ item_lines (running_instructions setup_info)
  ++ match ide_setup setup_info with
     | [] => []
     | items => (newline ++ "IDE Setup:")%string :: item_lines items
     end.

Section Agent.

Variable World : Type.
Variable subprocess_run : string -> World -> RunOutcome * World.
Variable get_contents : string -> Contents.
Variable b64decode_utf8 : string -> option string.
Variable markdown_soup : string -> Soup.
(** The depth allowed to the recursion of [install_tool]. *)
Variable fuel : nat.

(** What [setup_environment_for_project] leaves behind: [self.projects],
    the host, and the lines printed at the end (the message of line 401 or
    the guide); what is printed while tools are checked and installed is
    not kept. *)
Record SetupResult : Type := {
  projects_after : list Project.t;
  machine_after : Machine World;
  printed : list string
}.

(** [next((p for p in self.projects if p["name"] == project_name), None)]. *)
Definition project_named (project_name : string)
    (projects : list Project.t) : option Project.t :=
  find (fun project => String.eqb (Project.name project) project_name)
       projects.

(** [setup_environment_for_project] (lines 389-440) on the registry of
    the agent; [None] when the discovery it starts raises. *)
Definition setup_environment_for_project (project_name : string)
    (projects : list Project.t) (st : Machine World) : option SetupResult :=
  let discovered :=
    match projects with
    | [] => discover_projects get_contents b64decode_utf8
    | _ :: _ => Some projects
    end in
  match discovered with
  | None => None
  | Some projects' =>
      match project_named project_name projects' with
      | None =>
          Some {| projects_after := projects'; machine_after := st;
                  printed :=
                    [("Project " ++ project_name ++ " not found")%string] |}
      | Some project =>
          let setup_info :=
            parse_readme markdown_soup (Project.readme_content project) in
          Some {| projects_after := projects';
                  machine_after :=
                    install_detected_tools subprocess_run tools_cache fuel
                      (detected_tools setup_info) st;
                  printed := setup_guide project_name setup_info |}
      end
  end.

(** The branch "Install a specific tool" of [run_interactive] once the
    tool is chosen (lines 498-505). *)
Definition install_specific_tool (tool : string) (st : Machine World)
    : option bool * Machine World :=
  ensure_installed subprocess_run tools_cache fuel tool st.

(** The loop of "List recommended tools" (lines 521-527): every listed
    tool is checked; the answers are what is printed for it. *)
Fixpoint report_tools (listed : list (string * nat)) (st : Machine World)
    : list (string * nat * bool) * Machine World :=
  match listed with
  | [] => ([], st)
  | (tool, count) :: rest =>
      let (installed, st1) :=
        check_tool_installed subprocess_run tools_cache tool st in
      let (lines, st2) := report_tools rest st1 in
      ((tool, count, installed) :: lines, st2)
  end.

Definition list_recommended_tools (projects : list Project.t)
    (st : Machine World) : list (string * nat * bool) * Machine World :=
  report_tools (recommended_tools markdown_soup projects) st.

End Agent.

Arguments projects_after {World} _.
Arguments machine_after {World} _.
Arguments printed {World} _.
Arguments setup_environment_for_project {World} _ _ _ _ _ _ _ _.
Arguments install_specific_tool {World} _ _ _ _.
Arguments report_tools {World} _ _ _.
Arguments list_recommended_tools {World} _ _ _ _.

(** How [main] ends: normally, or with the exception that [input] raises
    at the end of the input, which nothing catches there. *)
Inductive Ending : Type := Finished | EndOfInput.

(** [input()]: the next line of the input, if any. *)
Definition input (stdin : list string) : option (string * list string) :=
  match stdin with
  | [] => None
  | line :: rest => Some (line, rest)
  end.

(** [os.environ.get(name)] followed by [if not value: value = input(...)]:
    a variable that is unset or empty is asked for. *)
Definition from_environment (value : option string) (stdin : list string)
    : option (string * list string) :=
  match value with
  | Some (String c rest) => Some (String c rest, stdin)
  | _ => input stdin
  end.

(** [main] (lines 534-570).  [session token repo stdin] stands for
    [EnvironmentSetupAgent(token, repo).run_interactive()]: it reads from
    the input and either returns ([true]) or raises ([false]).  The result
    is the list of the sessions started, with their credentials, and the
    way [main] ends. *)
Definition main
    (session : string -> string -> list string -> bool * list string)
    (GITHUB_TOKEN GITHUB_REPO : option string) (stdin : list string)
    : list (string * string) * Ending :=
  match from_environment GITHUB_TOKEN stdin with
  | None => ([], EndOfInput)
  | Some (github_token, stdin1) =>
      match from_environment GITHUB_REPO stdin1 with
      | None => ([], EndOfInput)
      | Some (repo_name, stdin2) =>
          let first := (github_token, repo_name) in
          let (ok, stdin3) := session github_token repo_name stdin2 in
          if ok then ([first], Finished)
          else
            match input stdin3 with
            | None => ([first], EndOfInput)
            | Some (retry, stdin4) =>
                if String.eqb (strip (lower retry)) "y" then
                  match input stdin4 with
                  | None => ([first], EndOfInput)
                  | Some (github_token', stdin5) =>
                      match input stdin5 with
                      | None => ([first], EndOfInput)
                      | Some (repo_name', stdin6) =>
                          (* the second session; what it raises is caught *)
                          let (_, _) :=
                            session github_token' repo_name' stdin6 in
                          ([first; (github_token', repo_name')], Finished)
                      end
                  end
                else ([first], Finished)
            end
      end
  end.

(* ================================================================= *)
(** ** Projects and sessions used in the examples *)

Module Samples.

Definition project (name readme : string) : Project.t :=
  {| Project.name := name; Project.path := name;
     Project.readme_content := readme |}.

(** Three projects; the documents themselves are not rendered here. *)
Definition projects : list Project.t :=
  [ project "api" "Needs Docker and docker-compose; run with npm start";
    project "web" "Install Node and npm, then docker build";
    project "worker" "A Python worker: pip install -r requirements.txt" ].

(** A rendering that finds no structure in any text. *)
Definition plain (readme : string) : Soup := [Fixtures.p readme].

(** A rendering with one section of each kind. *)
Definition sections (readme : string) : Soup :=
  [ Fixtures.h "h1" "Requirements"; Fixtures.p "docker";
    Fixtures.h "h2" "Installation"; Fixtures.p "make deps";
    Fixtures.h "h2" "Running"; Fixtures.p "make run" ].

(** A session that raises whatever the credentials. *)
Definition refused (token repo : string) (stdin : list string)
    : bool * list string := (false, stdin).

End Samples.

(* ================================================================= *)
(** * Properties *)

(** ** Strings *)

Lemma append_empty_r (s : string) : (s ++ EmptyString)%string = s.
Proof. induction s as [|c s IH]; simpl; [reflexivity | now rewrite IH]. Qed.

Lemma append_assoc (a b c : string) :
  ((a ++ b) ++ c)%string = (a ++ b ++ c)%string.
Proof. induction a as [|x a IH]; simpl; [reflexivity | now rewrite IH]. Qed.

Lemma lower_append (a b : string) :
  lower (a ++ b) = (lower a ++ lower b)%string.
Proof. induction a as [|x a IH]; simpl; [reflexivity | now rewrite IH]. Qed.

Lemma startswith_spec (term s : string) :
  startswith term s = true <-> exists after, s = (term ++ after)%string.
Proof.
  revert s. induction term as [|a term IH]; intro s; simpl.
  - split; [intros _; now exists s | reflexivity].
  - destruct s as [|b s].
    + split; [discriminate | intros [after H]; discriminate].
    + rewrite andb_true_iff, IH. split.
      * intros [Hab [after ->]]. apply Ascii.eqb_eq in Hab. subst b.
        now exists after.
      * intros [after H]. injection H as -> ->. split.
        -- apply Ascii.eqb_refl.
        -- now exists after.
Qed.

(** [term in text] is the substring relation. *)
Lemma str_in_spec (term s : string) :
  str_in term s = true <-> occurs_in term s.
Proof.
  unfold occurs_in. induction s as [|c s IH]; simpl.
  - destruct (startswith term EmptyString) eqn:E.
    + split; [intros _|reflexivity]. apply startswith_spec in E.
      destruct E as [after E]. now exists EmptyString, after.
    + split; [discriminate|]. intros [before [after H]].
      destruct before; simpl in H.
      * assert (startswith term EmptyString = true) as E'
          by (apply startswith_spec; now exists after).
        congruence.
      * discriminate.
  - destruct (startswith term (String c s)) eqn:E.
    + split; [intros _|reflexivity]. apply startswith_spec in E.
      destruct E as [after E]. now exists EmptyString, after.
    + rewrite IH. split.
      * intros [before [after ->]]. now exists (String c before), after.
      * intros [before [after H]]. destruct before as [|b before]; simpl in H.
        -- assert (startswith term (String c s) = true) as E'
             by (apply startswith_spec; now exists after).
           congruence.
        -- injection H as -> ->. now exists before, after.
Qed.

Lemma any_in_spec (terms : list string) (s : string) :
  any_in terms s = true <-> exists term, In term terms /\ occurs_in term s.
Proof.
  unfold any_in. rewrite existsb_exists. split.
  - intros [term [Hin H]]. exists term. split; [assumption|].
    now apply str_in_spec.
  - intros [term [Hin H]]. exists term. split; [assumption|].
    now apply str_in_spec.
Qed.

Lemma any_in_none (terms : list string) (s : string) :
  (forall term, In term terms -> ~ occurs_in term s) ->
  any_in terms s = false.
Proof.
  intro H. destruct (any_in terms s) eqn:E; [|reflexivity].
  apply any_in_spec in E. destruct E as [term [Hin Hocc]].
  exfalso. exact (H term Hin Hocc).
Qed.

(** ** The document tree *)

Lemma find_all_node_Tag names name contents next_siblings :
  find_all_node names (Tag name contents) next_siblings =
  (if existsb (String.eqb name) names
   then [(Tag name contents, next_siblings)] else [])
  ++ find_all_siblings names contents.
Proof.
  simpl. f_equal. induction contents as [|c l IH]; simpl; [reflexivity|].
  now rewrite IH.
Qed.

(** Induction over a node and the nodes below it. *)
Lemma Node_forest_ind (P : Node -> Prop) :
  (forall s, P (NavigableString s)) ->
  (forall name contents, Forall P contents -> P (Tag name contents)) ->
  forall node, P node.
Proof.
  intros Hs Ht. fix self 1. intros [name contents|s].
  - apply Ht. induction contents as [|c l IH]; constructor.
    + apply self.
    + exact IH.
  - apply Hs.
Qed.

Lemma occurs_in_contents node next_siblings child rest :
  occurs node next_siblings (contents_of child) ->
  occurs node next_siblings (child :: rest).
Proof.
  destruct child as [name contents|s]; simpl; intro H.
  - now apply occurs_below.
  - inversion H.
Qed.

Lemma find_all_node_sound names n :
  forall sibs node next_siblings,
    In (node, next_siblings) (find_all_node names n sibs) ->
    (node = n /\ next_siblings = sibs /\ name_in node names = true)
    \/ (occurs node next_siblings (contents_of n)
        /\ name_in node names = true).
Proof.
  induction n as [s|name contents IH] using Node_forest_ind;
    intros sibs node next_siblings H.
  - simpl in H. contradiction.
  - rewrite find_all_node_Tag in H. apply in_app_or in H.
    destruct H as [H|H].
    + destruct (existsb (String.eqb name) names) eqn:E;
        [|simpl in H; contradiction].
      destruct H as [H|[]]. injection H as <- <-. left. now simpl.
    + right. simpl. clear sibs. revert H.
      induction IH as [|c l Hc _ IHl]; simpl; intro H; [contradiction|].
      apply in_app_or in H. destruct H as [H|H].
      * apply Hc in H. destruct H as [[-> [-> Hn]]|[Ho Hn]].
        -- split; [now constructor | assumption].
        -- split; [now apply occurs_in_contents | assumption].
      * apply IHl in H. destruct H as [Ho Hn].
        split; [now apply occurs_later | assumption].
Qed.

(** [find_all] returns every node of the forest that has one of the names,
    with the siblings that follow it, and nothing else. *)
Lemma find_all_siblings_spec names node next_siblings forest :
  In (node, next_siblings) (find_all_siblings names forest) <->
  occurs node next_siblings forest /\ name_in node names = true.
Proof.
  split.
  - revert node next_siblings.
    induction forest as [|c l IH]; simpl; intros node next_siblings H;
      [contradiction|].
    apply in_app_or in H. destruct H as [H|H].
    + apply find_all_node_sound in H. destruct H as [[-> [-> Hn]]|[Ho Hn]].
      * split; [now constructor | assumption].
      * split; [now apply occurs_in_contents | assumption].
    + apply IH in H. destruct H as [Ho Hn].
      split; [now apply occurs_later | assumption].
  - intros [Ho Hn].
    induction Ho as [rest ->|name contents rest Ho IH|other rest Ho IH].
    + cbn [find_all_siblings]. apply in_or_app. left.
      destruct node as [name contents|s]; [|discriminate].
      rewrite find_all_node_Tag. simpl in Hn. rewrite Hn. now left.
    + cbn [find_all_siblings]. apply in_or_app. left.
      rewrite find_all_node_Tag. apply in_or_app. right. exact IH.
    + cbn [find_all_siblings]. apply in_or_app. now right.
Qed.

(** ** The content loops *)

Lemma prerequisites_content_acc next_siblings content :
  prerequisites_content next_siblings content =
  content ++ prerequisites_content next_siblings [].
Proof.
  revert content. induction next_siblings as [|sibling rest IH]; intro content;
    simpl.
  - now rewrite app_nil_r.
  - destruct (name_in sibling heading_names); [now rewrite app_nil_r|].
    destruct (name_in sibling ["ul"]).
    + rewrite IH, (IH (li_entries sibling)). now rewrite app_assoc.
    + destruct (name_in sibling ["p"]).
      * rewrite IH, (IH [_]). now rewrite app_assoc.
      * apply IH.
Qed.

Lemma section_content_acc next_siblings content :
  section_content next_siblings content =
  content ++ section_content next_siblings [].
Proof.
  revert content. induction next_siblings as [|sibling rest IH]; intro content;
    simpl.
  - now rewrite app_nil_r.
  - destruct (name_in sibling heading_names); [now rewrite app_nil_r|].
    destruct (name_in sibling ["p"; "pre"; "code"]).
    + rewrite IH, (IH [_]). now rewrite app_assoc.
    + destruct (name_in sibling ["ul"]).
      * rewrite IH, (IH (li_entries sibling)). now rewrite app_assoc.
      * apply IH.
Qed.

(** One step of the loop of a branch: a sibling that is not a heading adds
    its contribution and the loop goes on. *)
Lemma content_of_cons c sibling rest :
  name_in sibling heading_names = false ->
  content_of c (sibling :: rest) = contribution c sibling ++ content_of c rest.
Proof.
  intro H. destruct c; simpl; rewrite H.
  - destruct (name_in sibling ["ul"]);
      [now rewrite prerequisites_content_acc|].
    destruct (name_in sibling ["p"]);
      [now rewrite prerequisites_content_acc | reflexivity].
  - destruct (name_in sibling ["p"; "pre"; "code"]);
      [now rewrite section_content_acc|].
    destruct (name_in sibling ["ul"]);
      [now rewrite section_content_acc | reflexivity].
  - destruct (name_in sibling ["p"; "pre"; "code"]);
      [now rewrite section_content_acc|].
    destruct (name_in sibling ["ul"]);
      [now rewrite section_content_acc | reflexivity].
  - destruct (name_in sibling ["p"; "pre"; "code"]);
      [now rewrite section_content_acc|].
    destruct (name_in sibling ["ul"]);
      [now rewrite section_content_acc | reflexivity].
  - destruct (name_in sibling ["p"; "pre"; "code"]);
      [now rewrite section_content_acc|].
    destruct (name_in sibling ["ul"]);
      [now rewrite section_content_acc | reflexivity].
Qed.

Lemma content_of_stop c rest :
  ends_capture rest -> content_of c rest = [].
Proof.
  destruct rest as [|stop rest]; intro H.
  - now destruct c.
  - simpl in H. destruct c; simpl; now rewrite H.
Qed.

(** A captured region is the siblings up to the first heading of the four
    names; each of them adds its contribution, in order. *)
Lemma content_of_region c before rest :
  (forall n, In n before -> name_in n heading_names = false) ->
  ends_capture rest ->
  content_of c (before ++ rest) = flat_map (contribution c) before.
Proof.
  intros Hb Hr. induction before as [|sibling before IH].
  - simpl. now apply content_of_stop.
  - change ((sibling :: before) ++ rest) with (sibling :: (before ++ rest)).
    rewrite content_of_cons by (apply Hb; now left).
    simpl. f_equal. apply IH. intros n Hn. apply Hb. now right.
Qed.

(** ** The loop over the headings *)

(** The [if]/[elif] chain extends the bucket of the first category whose
    terms occur in the heading, with the content of that branch's loop. *)
Lemma parse_heading_classify i heading next_siblings :
  parse_heading i (heading, next_siblings) =
  match classify (lower (text heading)) with
  | Some c => extend c i (content_of c next_siblings)
  | None => i
  end.
Proof.
  unfold parse_heading, classify.
  destruct (any_in prerequisites_terms _); [reflexivity|].
  destruct (any_in setup_terms _); [reflexivity|].
  destruct (any_in database_terms _); [reflexivity|].
  destruct (any_in run_terms _); [reflexivity|].
  destruct (any_in ide_terms _); reflexivity.
Qed.

Lemma bucket_parse_heading c i found :
  bucket c (parse_heading i found) = bucket c i ++ entries_under c found.
Proof.
  destruct found as [heading next_siblings].
  rewrite parse_heading_classify. unfold entries_under. simpl fst. simpl snd.
  destruct (classify (lower (text heading))) as [c'|].
  - destruct c', c; simpl; now rewrite ?app_nil_r.
  - now rewrite app_nil_r.
Qed.

Lemma bucket_fold c found_list i :
  bucket c (fold_left parse_heading found_list i) =
  bucket c i ++ flat_map (entries_under c) found_list.
Proof.
  revert i. induction found_list as [|found rest IH]; intro i; simpl.
  - now rewrite app_nil_r.
  - rewrite IH, bucket_parse_heading. now rewrite app_assoc.
Qed.

(** Every bucket is the concatenation, in document order, of what the
    headings of its category collect. *)
Lemma bucket_parse_soup c soup :
  bucket c (parse_soup soup) =
  flat_map (entries_under c) (find_all_siblings heading_names soup).
Proof.
  unfold parse_soup. rewrite bucket_fold. now destruct c.
Qed.

Lemma entries_under_classified c heading next_siblings :
  classify (lower (text heading)) = Some c ->
  entries_under c (heading, next_siblings) = content_of c next_siblings.
Proof.
  intro H. unfold entries_under. simpl fst. simpl snd. rewrite H.
  now destruct c.
Qed.

(** What a classified heading collects is a segment of its bucket. *)
Lemma bucket_segment c soup heading next_siblings :
  occurs heading next_siblings soup ->
  name_in heading heading_names = true ->
  classify (lower (text heading)) = Some c ->
  exists earlier later,
    bucket c (parse_soup soup) =
    earlier ++ content_of c next_siblings ++ later.
Proof.
  intros Ho Hn Hc.
  assert (In (heading, next_siblings) (find_all_siblings heading_names soup))
    as Hin by (apply find_all_siblings_spec; now split).
  apply in_split in Hin. destruct Hin as [l1 [l2 Hin]].
  rewrite bucket_parse_soup, Hin, flat_map_app. simpl.
  rewrite (entries_under_classified _ _ _ Hc).
  now exists (flat_map (entries_under c) l1), (flat_map (entries_under c) l2).
Qed.

(** ** Heading levels *)




(** ** What the siblings of a heading contribute *)









(** ** Three bullet sections *)

Lemma text_li a : text (Fixtures.li a) = a.
Proof. apply append_empty_r. Qed.

Lemma li_entries_bullets a b :
  li_entries (Fixtures.bullets a b) = [strip a; strip b].
Proof.
  unfold li_entries, find_all.
  change (find_all_siblings ["li"] (contents_of (Fixtures.bullets a b)))
    with [(Fixtures.li a, [Fixtures.nl; Fixtures.li b; Fixtures.nl]);
          (Fixtures.li b, [Fixtures.nl])].
  cbn [map fst]. now rewrite !text_li.
Qed.

Lemma contribution_bullets c a b :
  contribution c (Fixtures.bullets a b) = [strip a; strip b].
Proof. rewrite <- li_entries_bullets. now destruct c. Qed.

Lemma content_of_bullets c a b before after rest :
  before = [] \/ before = [Fixtures.nl] ->
  after = [] \/ after = [Fixtures.nl] ->
  ends_capture rest ->
  content_of c (before ++ Fixtures.bullets a b :: after ++ rest) =
  [strip a; strip b].
Proof.
  intros Hb Ha Hr.
  change (before ++ Fixtures.bullets a b :: after ++ rest)
    with (before ++ [Fixtures.bullets a b] ++ after ++ rest).
  rewrite !app_assoc.
  rewrite (content_of_region c ((before ++ [Fixtures.bullets a b]) ++ after) rest).
  - rewrite !flat_map_app. simpl. rewrite contribution_bullets.
    destruct Hb as [->| ->], Ha as [->| ->]; now destruct c.
  - intros n Hn. apply in_app_or in Hn. destruct Hn as [Hn|Hn].
    + apply in_app_or in Hn. destruct Hn as [Hn|[<-|[]]]; [|reflexivity].
      destruct Hb as [->| ->]; [contradiction|]. now destruct Hn as [<-|[]].
    + destruct Ha as [->| ->]; [contradiction|]. now destruct Hn as [<-|[]].
  - assumption.
Qed.

(** C6.  For the document [## Prerequisites], [## Setup], [## Run], each
    followed by a bullet list of two items, the prerequisites,
    environment_setup and running_instructions buckets hold the two trimmed
    items of their section and the two other buckets are empty. *)
Theorem three_bullet_sections :
  forall markdown_soup readme_content a b c d e f,
    markdown_soup readme_content = Fixtures.three_sections a b c d e f ->
    let info := parse_readme markdown_soup readme_content in
    prerequisites info = [strip a; strip b]
    /\ environment_setup info = [strip c; strip d]
    /\ running_instructions info = [strip e; strip f]
    /\ database_setup info = []
    /\ ide_setup info = [].
Proof.
  intros markdown_soup readme_content a b c d e f Hdoc info.
  assert (forall k, bucket k info =
                    bucket k (parse_soup (Fixtures.three_sections a b c d e f)))
    as Hb.
  { intro k. unfold info, parse_readme. rewrite Hdoc. now destruct k. }
  assert (forall k,
             bucket k (parse_soup (Fixtures.three_sections a b c d e f)) =
             match k with
             | Prerequisites => [strip a; strip b]
             | EnvironmentSetup => [strip c; strip d]
             | RunningInstructions => [strip e; strip f]
             | _ => []
             end) as Hk.
  { intro k. rewrite bucket_parse_soup.
    change (find_all_siblings heading_names
              (Fixtures.three_sections a b c d e f))
      with [ (Fixtures.h "h2" "Prerequisites",
              [Fixtures.nl; Fixtures.bullets a b; Fixtures.nl;
               Fixtures.h "h2" "Setup"; Fixtures.nl; Fixtures.bullets c d;
               Fixtures.nl; Fixtures.h "h2" "Run"; Fixtures.nl;
               Fixtures.bullets e f]);
             (Fixtures.h "h2" "Setup",
              [Fixtures.nl; Fixtures.bullets c d; Fixtures.nl;
               Fixtures.h "h2" "Run"; Fixtures.nl; Fixtures.bullets e f]);
             (Fixtures.h "h2" "Run", [Fixtures.nl; Fixtures.bullets e f]) ].
    unfold flat_map, entries_under, fst, snd.
    change (classify (lower (text (Fixtures.h "h2" "Prerequisites"))))
      with (Some Prerequisites).
    change (classify (lower (text (Fixtures.h "h2" "Setup"))))
      with (Some EnvironmentSetup).
    change (classify (lower (text (Fixtures.h "h2" "Run"))))
      with (Some RunningInstructions).
    destruct k; cbn [category_eqb app]; rewrite ?app_nil_r;
      try reflexivity.
    - exact (content_of_bullets Prerequisites a b [Fixtures.nl] [Fixtures.nl]
               (Fixtures.h "h2" "Setup" :: _)
               (or_intror eq_refl) (or_intror eq_refl) eq_refl).
    - exact (content_of_bullets EnvironmentSetup c d [Fixtures.nl]
               [Fixtures.nl] (Fixtures.h "h2" "Run" :: _)
               (or_intror eq_refl) (or_intror eq_refl) eq_refl).
    - exact (content_of_bullets RunningInstructions e f [Fixtures.nl] [] []
               (or_intror eq_refl) (or_introl eq_refl) I). }
  pose proof (Hb Prerequisites) as H1. pose proof (Hb EnvironmentSetup) as H2.
  pose proof (Hb RunningInstructions) as H3.
  pose proof (Hb DatabaseSetup) as H4. pose proof (Hb IdeSetup) as H5.
  rewrite Hk in H1, H2, H3, H4, H5. simpl in H1, H2, H3, H4, H5.
  repeat split; assumption.
Qed.

(** C6 at items written with blanks around them. *)
Lemma three_bullet_sections_witness :
  let info :=
    parse_readme
      (fun _ => Fixtures.three_sections "Git " "Docker" " cp .env.example .env"
                                        "make deps" "make run" "make logs")
      "## Prerequisites" in
  prerequisites info = ["Git"; "Docker"]
  /\ environment_setup info = ["cp .env.example .env"; "make deps"]
  /\ running_instructions info = ["make run"; "make logs"]
  /\ database_setup info = []
  /\ ide_setup info = [].
Proof.
  exact (three_bullet_sections
           (fun _ => Fixtures.three_sections "Git " "Docker"
                       " cp .env.example .env" "make deps" "make run"
                       "make logs")
           "## Prerequisites" _ _ _ _ _ _ eq_refl).
Defined.

(** ** Several headings of one category *)

Lemma entries_under_other c found :
  classify (lower (text (fst found))) <> Some c ->
  entries_under c found = [].
Proof.
  intro H. unfold entries_under.
  destruct (classify (lower (text (fst found)))) as [c'|]; [|reflexivity].
  destruct c', c; try reflexivity; now contradiction H.
Qed.

Lemma flat_map_entries_none c found_list :
  (forall found, In found found_list ->
                 classify (lower (text (fst found))) <> Some c) ->
  flat_map (entries_under c) found_list = [].
Proof.
  induction found_list as [|found rest IH]; intro H; simpl; [reflexivity|].
  rewrite entries_under_other by (apply H; now left).
  apply IH. intros x Hx. apply H. now right.
Qed.

(** C8.  [find_all_siblings heading_names soup] is what the loop of
    [parse_readme] visits: the headings in document order, each with the
    siblings after it.  When two of them are classified as setup, and no
    other heading of the document is, the environment_setup bucket is what
    the first collected followed by what the second collected, every entry
    kept. *)
Theorem two_setup_sections_concatenate :
  forall soup first second hs1 hs2 hs3,
    find_all_siblings heading_names soup =
      hs1 ++ first :: hs2 ++ second :: hs3 ->
    classify (lower (text (fst first))) = Some EnvironmentSetup ->
    classify (lower (text (fst second))) = Some EnvironmentSetup ->
    (forall other, In other (hs1 ++ hs2 ++ hs3) ->
       classify (lower (text (fst other))) <> Some EnvironmentSetup) ->
    environment_setup (parse_soup soup) =
    section_content (snd first) [] ++ section_content (snd second) [].
Proof.
  intros soup [h1 s1] [h2 s2] hs1 hs2 hs3 Hfound H1 H2 Hothers.
  change (environment_setup (parse_soup soup))
    with (bucket EnvironmentSetup (parse_soup soup)).
  rewrite bucket_parse_soup, Hfound.
  rewrite flat_map_app. cbn [flat_map]. rewrite flat_map_app.
  cbn [flat_map].
  rewrite (entries_under_classified _ _ _ H1).
  rewrite (entries_under_classified _ _ _ H2).
  rewrite !flat_map_entries_none.
  - simpl. now rewrite app_nil_r.
  - intros x Hx. apply Hothers. apply in_or_app. right. apply in_or_app.
    now right.
  - intros x Hx. apply Hothers. apply in_or_app. right. apply in_or_app.
    now left.
  - intros x Hx. apply Hothers. apply in_or_app. now left.
Qed.

(** C8 at [## Setup] and [## Additional Setup]; the entry "run make"
    is collected under both and kept twice. *)
Lemma two_setup_sections_concatenate_witness :
  environment_setup (parse_soup Fixtures.two_setups) =
  ["clone the repository"; "copy .env"; "run make"] ++ ["run make"].
Proof.
  exact (two_setup_sections_concatenate Fixtures.two_setups
           (Fixtures.h "h2" "Setup", tl Fixtures.two_setups)
           (Fixtures.h "h2" "Additional Setup",
            [Fixtures.nl; Fixtures.p "run make"; Fixtures.nl])
           [] [] [] eq_refl eq_refl eq_refl
           (fun other (H : In other []) => match H with end)).
Defined.

(** ** Keywords are substrings *)

(** C10.  A category term is looked for anywhere in the lower-cased
    heading text.  A heading (h1..h4) whose lower-cased text contains "ide"
    and no term of the four earlier categories is classified as IDE setup
    and what follows it is appended to ide_setup; one whose text contains
    "start" and no term of the three earlier categories is classified as
    running instructions and what follows it is appended there. *)
Theorem keyword_is_substring :
  forall soup heading next_siblings,
    occurs heading next_siblings soup ->
    name_in heading heading_names = true ->
    (occurs_in "ide" (lower (text heading)) ->
     (forall term,
         In term (prerequisites_terms ++ setup_terms ++ database_terms
                  ++ run_terms) ->
         ~ occurs_in term (lower (text heading))) ->
     classify (lower (text heading)) = Some IdeSetup /\
     exists earlier later,
       ide_setup (parse_soup soup) =
       earlier ++ section_content next_siblings [] ++ later)
    /\
    (occurs_in "start" (lower (text heading)) ->
     (forall term,
         In term (prerequisites_terms ++ setup_terms ++ database_terms) ->
         ~ occurs_in term (lower (text heading))) ->
     classify (lower (text heading)) = Some RunningInstructions /\
     exists earlier later,
       running_instructions (parse_soup soup) =
       earlier ++ section_content next_siblings [] ++ later).
Proof.
  intros soup heading next_siblings Ho Hn. split.
  - intros Hide Hnone.
    assert (classify (lower (text heading)) = Some IdeSetup) as Hc.
    { unfold classify.
      rewrite (any_in_none prerequisites_terms)
        by (intros t Ht; apply Hnone; apply in_or_app; now left).
      rewrite (any_in_none setup_terms)
        by (intros t Ht; apply Hnone; apply in_or_app; right;
            apply in_or_app; now left).
      rewrite (any_in_none database_terms)
        by (intros t Ht; apply Hnone; apply in_or_app; right;
            apply in_or_app; right; apply in_or_app; now left).
      rewrite (any_in_none run_terms)
        by (intros t Ht; apply Hnone; apply in_or_app; right;
            apply in_or_app; right; apply in_or_app; now right).
      assert (any_in ide_terms (lower (text heading)) = true) as ->
        by (apply any_in_spec; exists "ide"; split; [now left | assumption]).
      reflexivity. }
    split; [exact Hc|].
    exact (bucket_segment IdeSetup soup heading next_siblings Ho Hn Hc).
  - intros Hstart Hnone.
    assert (classify (lower (text heading)) = Some RunningInstructions) as Hc.
    { unfold classify.
      rewrite (any_in_none prerequisites_terms)
        by (intros t Ht; apply Hnone; apply in_or_app; now left).
      rewrite (any_in_none setup_terms)
        by (intros t Ht; apply Hnone; apply in_or_app; right;
            apply in_or_app; now left).
      rewrite (any_in_none database_terms)
        by (intros t Ht; apply Hnone; apply in_or_app; right;
            apply in_or_app; now right).
      assert (any_in run_terms (lower (text heading)) = true) as ->
        by (apply any_in_spec; exists "start"; split;
            [right; now left | assumption]).
      reflexivity. }
    split; [exact Hc|].
    exact (bucket_segment RunningInstructions soup heading next_siblings
             Ho Hn Hc).
Qed.

Lemma not_occurs_in term s : str_in term s = false -> ~ occurs_in term s.
Proof. intros H Ho. apply str_in_spec in Ho. congruence. Qed.

(** C10 at the headings "User Guide" and "Getting Started". *)
Lemma keyword_is_substring_witness :
  (classify "user guide" = Some IdeSetup /\
   exists earlier later,
     ide_setup (parse_soup Fixtures.guide) =
     earlier ++ ["open the project"] ++ later)
  /\
  (classify "getting started" = Some RunningInstructions /\
   exists earlier later,
     running_instructions (parse_soup Fixtures.started) =
     earlier ++ ["make run"] ++ later).
Proof.
  split.
  - apply (keyword_is_substring Fixtures.guide (Fixtures.h "h2" "User Guide")
             (tl Fixtures.guide)).
    + now constructor.
    + reflexivity.
    + now exists "user gu", EmptyString.
    + intros term Hin. apply not_occurs_in. simpl in Hin.
      repeat (destruct Hin as [<-|Hin]; [reflexivity|]). contradiction.
  - apply (keyword_is_substring Fixtures.started
             (Fixtures.h "h1" "Getting Started") (tl Fixtures.started)).
    + now constructor.
    + reflexivity.
    + now exists "getting ", "ed".
    + intros term Hin. apply not_occurs_in. simpl in Hin.
      repeat (destruct Hin as [<-|Hin]; [reflexivity|]). contradiction.
Defined.

(** ** Tool detection *)

Lemma detect_loop_In tool patterns readme_content tools :
  In tool (detect_loop patterns readme_content tools) <->
  In tool tools \/
  exists pattern, In (tool, pattern) patterns
                  /\ search pattern readme_content = true.
Proof.
  revert tools. induction patterns as [|[t r] rest IH]; intro tools; simpl.
  - split; [now left | intros [H|[r [[] _]]]; exact H].
  - destruct (search r readme_content) eqn:E; rewrite IH; split.
    + intros [H|[r' [Hin Hs]]].
      * apply in_app_or in H. destruct H as [H|[<-|[]]]; [now left|].
        right. exists r. split; [now left | assumption].
      * right. exists r'. split; [now right | assumption].
    + intros [H|[r' [[Heq|Hin] Hs]]].
      * left. apply in_or_app. now left.
      * injection Heq as <- <-. left. apply in_or_app. right. now left.
      * right. now exists r'.
    + intros [H|[r' [Hin Hs]]]; [now left|].
      right. exists r'. split; [now right | assumption].
    + intros [H|[r' [[Heq|Hin] Hs]]]; [now left| |].
      * injection Heq as <- <-. congruence.
      * right. now exists r'.
Qed.

(** The character a match that starts after [before] sees behind it. *)
Lemma last_char_cons c s :
  last_char (String c s) =
  Some (match last_char s with Some x => x | None => c end).
Proof.
  revert c. induction s as [|d s IH]; intro c; [reflexivity|].
  transitivity (last_char (String d s)); [reflexivity|].
  rewrite (IH d). reflexivity.
Qed.

(** A match at an offset is found by the scan. *)
Lemma search_from_offset r before s prev :
  match_at r (match last_char before with Some c => Some c | None => prev end)
           s (fun _ _ => true) = true ->
  search_from r prev (before ++ s) = true.
Proof.
  revert prev. induction before as [|c before IH]; intros prev H.
  - simpl in H. destruct s; simpl; now rewrite H.
  - change (String c before ++ s)%string with (String c (before ++ s)).
    cbn [search_from].
    destruct (match_at r prev (String c (before ++ s)) (fun _ _ => true));
      [reflexivity|].
    apply IH. rewrite last_char_cons in H.
    destruct (last_char before); exact H.
Qed.

Lemma is_word_lower c : is_word (lower_ascii c) = is_word c.
Proof. destruct c as [[] [] [] [] [] [] [] []]; reflexivity. Qed.

Lemma lower_ascii_idem c : lower_ascii (lower_ascii c) = lower_ascii c.
Proof. destruct c as [[] [] [] [] [] [] [] []]; reflexivity. Qed.

Lemma lower_idem s : lower (lower s) = lower s.
Proof.
  induction s as [|c s IH]; simpl; [reflexivity|].
  now rewrite lower_ascii_idem, IH.
Qed.

Lemma lower_split w a b :
  lower w = (a ++ b)%string ->
  exists w1 w2, w = (w1 ++ w2)%string /\ lower w1 = a /\ lower w2 = b.
Proof.
  revert w. induction a as [|x a IH]; intros w H.
  - now exists EmptyString, w.
  - destruct w as [|c w]; [discriminate|]. simpl in H.
    injection H as Hc Hw. destruct (IH w Hw) as [w1 [w2 [-> [H1 H2]]]].
    exists (String c w1), w2. simpl. now rewrite Hc, H1.
Qed.

(** A literal matches any spelling of it in upper and lower case. *)
Lemma match_at_lit s w rest prev k :
  lower w = lower s ->
  match_at (lit s) prev (w ++ rest) k =
  k (match last_char w with Some c => Some c | None => prev end) rest.
Proof.
  revert w prev. induction s as [|c s IH]; intros w prev H.
  - destruct w; [reflexivity | discriminate].
  - destruct w as [|x w]; [discriminate|]. simpl in H. injection H as Hx Hw.
    change (String x w ++ rest)%string with (String x (w ++ rest)).
    cbn [lit match_at]. unfold same_char at 1. rewrite Hx, Ascii.eqb_refl.
    cbn [andb]. rewrite (IH w (Some x) Hw), last_char_cons.
    now destruct (last_char w).
Qed.

Lemma word_after_lower w s rest :
  s <> EmptyString -> lower w = lower s ->
  word_after (w ++ rest) = word_after (s ++ rest).
Proof.
  intros Hs H. destruct s as [|c s]; [now contradiction Hs|].
  destruct w as [|x w]; [discriminate|]. simpl in *.
  injection H as Hx _. now rewrite <- (is_word_lower x), Hx, is_word_lower.
Qed.

Lemma word_before_lower w s :
  lower w = lower s ->
  word_before (last_char w) = word_before (last_char s).
Proof.
  revert s. induction w as [|x w IH]; intros s H.
  - destruct s; [reflexivity | discriminate].
  - destruct s as [|c s]; [discriminate|]. simpl in H. injection H as Hx Hw.
    rewrite !last_char_cons. specialize (IH s Hw).
    destruct w as [|y w], s as [|d s]; try discriminate.
    + simpl. now rewrite <- (is_word_lower x), Hx, is_word_lower.
    + now rewrite !last_char_cons in *.
Qed.

(** The two patterns at a spelling of "docker", a blank or a hyphen, and
    a spelling of "compose". *)
Lemma docker_compose_matches prev w1 sep w2 after :
  lower w1 = "docker" ->
  lower_ascii sep = "-"%char \/ lower_ascii sep = " "%char ->
  lower w2 = "compose" ->
  word_before prev = false ->
  word_after after = false ->
  let s := (w1 ++ String sep (w2 ++ after))%string in
  match_at (word "docker") prev s (fun _ _ => true) = true
  /\ match_at (Cat Boundary
                (Cat (lit "docker")
                   (Cat (OneOf [" "%char; "-"%char])
                      (Cat (lit "compose") Boundary))))
              prev s (fun _ _ => true) = true.
Proof.
  intros H1 Hsep H2 Hprev Hafter s.
  assert (word_after s = true) as Hstart.
  { unfold s. now rewrite (word_after_lower w1 "docker"). }
  assert (word_before (last_char w1) = true) as Hend1
    by now rewrite (word_before_lower w1 "docker").
  assert (word_before (last_char w2) = true) as Hend2
    by now rewrite (word_before_lower w2 "compose").
  assert (is_word sep = false) as Hw
    by (rewrite <- is_word_lower; destruct Hsep as [-> | ->]; reflexivity).
  assert (existsb (same_char sep) [" "%char; "-"%char] = true) as Hone
    by (unfold existsb, same_char; destruct Hsep as [-> | ->]; reflexivity).
  destruct (last_char w1) as [l1|] eqn:L1; [|discriminate Hend1].
  destruct (last_char w2) as [l2|] eqn:L2; [|discriminate Hend2].
  split.
  - unfold word. cbn [match_at]. rewrite Hprev, Hstart. cbn [xorb].
    unfold s. rewrite (match_at_lit "docker" w1) by exact H1. rewrite L1.
    cbn [match_at word_after]. now rewrite Hend1, Hw.
  - cbn [match_at]. rewrite Hprev, Hstart. cbn [xorb].
    unfold s. rewrite (match_at_lit "docker" w1) by exact H1.
    cbn [match_at]. rewrite Hone. cbn [andb].
    rewrite (match_at_lit "compose" w2) by exact H2. rewrite L2.
    cbn [match_at]. now rewrite Hend2, Hafter.
Qed.

Lemma docker_compose_spelling w :
  lower w = "docker-compose" \/ lower w = "docker compose" ->
  exists w1 sep w2,
    w = (w1 ++ String sep w2)%string /\ lower w1 = "docker"
    /\ (lower_ascii sep = "-"%char \/ lower_ascii sep = " "%char)
    /\ lower w2 = "compose".
Proof.
  intros [H|H].
  - apply (lower_split w "docker" "-compose") in H.
    destruct H as [w1 [w2 [-> [H1 H2]]]].
    destruct w2 as [|sep w2]; [discriminate|]. simpl in H2.
    injection H2 as Hs H2. exists w1, sep, w2. auto.
  - apply (lower_split w "docker" " compose") in H.
    destruct H as [w1 [w2 [-> [H1 H2]]]].
    destruct w2 as [|sep w2]; [discriminate|]. simpl in H2.
    injection H2 as Hs H2. exists w1, sep, w2. auto.
Qed.

(** C7, as amended.  When "docker-compose" or "docker compose", in any
    mix of upper and lower case, stands in the text as a word of its own
    (no letter, digit or underscore right before it or right after it),
    the detected tools include both "docker" and "docker-compose". *)
Theorem docker_compose_detected :
  forall before w after,
    lower w = "docker-compose" \/ lower w = "docker compose" ->
    word_before (last_char before) = false ->
    word_after after = false ->
    In "docker" (detect_tools (before ++ w ++ after))
    /\ In "docker-compose" (detect_tools (before ++ w ++ after)).
Proof.
  intros before w after Hw Hbefore Hafter.
  destruct (docker_compose_spelling w Hw) as [w1 [sep [w2 [-> [H1 [Hs H2]]]]]].
  destruct (docker_compose_matches
              (match last_char before with Some c => Some c | None => None end)
              w1 sep w2 after H1 Hs H2) as [Hd Hdc]; try assumption.
  { destruct (last_char before); [exact Hbefore | reflexivity]. }
  rewrite append_assoc. change (String sep w2 ++ after)%string
    with (String sep (w2 ++ after)).
  unfold detect_tools. split; apply detect_loop_In; right.
  - exists (word "docker"). split.
    + unfold tool_patterns. simpl. tauto.
    + now apply search_from_offset.
  - eexists. split.
    + unfold tool_patterns. do 7 right. left. reflexivity.
    + now apply search_from_offset.
Qed.

(** The amended C7 at "Run Docker-Compose up" and "use DOCKER COMPOSE". *)
Lemma docker_compose_detected_witness :
  (In "docker" (detect_tools "Run Docker-Compose up")
   /\ In "docker-compose" (detect_tools "Run Docker-Compose up"))
  /\ (In "docker" (detect_tools "use DOCKER COMPOSE")
      /\ In "docker-compose" (detect_tools "use DOCKER COMPOSE")).
Proof.
  split.
  - exact (docker_compose_detected "Run " "Docker-Compose" " up"
             (or_introl eq_refl) eq_refl eq_refl).
  - exact (docker_compose_detected "use " "DOCKER COMPOSE" EmptyString
             (or_intror eq_refl) eq_refl eq_refl).
Defined.

(** C7 as stated fails when the words are glued to a neighbour: the text
    "mydocker-compose" contains "docker-compose" and nothing is detected;
    in "docker-composer" only "docker" is. *)
Lemma glued_docker_compose_not_detected :
  occurs_in "docker-compose" "mydocker-compose"
  /\ detect_tools "mydocker-compose" = []
  /\ occurs_in "docker-compose" "docker-composer"
  /\ detect_tools "docker-composer" = ["docker"].
Proof.
  repeat split.
  - now exists "my", EmptyString.
  - now exists EmptyString, "r".
Qed.

(** C9.  Every detected tool is a key of the registry. *)
Theorem detected_tools_are_known :
  forall readme_content tool,
    In tool (detect_tools readme_content) ->
    In tool (keys tools_cache).
Proof.
  intros readme_content tool H. unfold detect_tools in H.
  apply detect_loop_In in H. destruct H as [[]|[pattern [Hin _]]].
  apply (in_map fst) in Hin. simpl fst in Hin.
  change (map fst tool_patterns)
    with ["java"; "maven"; "gradle"; "node"; "npm"; "python3"; "docker";
          "docker-compose"; "git"; "mongodb"; "postgresql"; "mysql";
          "redis"; "vscode"; "intellij-idea"] in Hin.
  change (keys tools_cache)
    with ["git"; "docker"; "docker-compose"; "nvm"; "node"; "npm"; "java";
          "maven"; "gradle"; "python3"; "mongodb"; "postgresql"; "mysql";
          "redis"; "vscode"; "intellij-idea"].
  simpl in Hin. simpl.
  repeat (destruct Hin as [<-|Hin]; [tauto|]). contradiction.
Qed.

(** C9 at a text that names two tools. *)
Lemma detected_tools_are_known_witness :
  In "docker" (detect_tools "install Docker and NodeJS")
  /\ In "docker" (keys tools_cache).
Proof.
  assert (In "docker" (detect_tools "install Docker and NodeJS")) as H
    by (vm_compute; tauto).
  split; [exact H|].
  exact (detected_tools_are_known "install Docker and NodeJS" "docker" H).
Defined.

(** ** The installer *)

Section InstallerFacts.

Variable World : Type.
Variable subprocess_run : string -> World -> RunOutcome * World.
Variable tools : list (string * ToolInfo).

Local Abbreviation check := (check_tool_installed subprocess_run tools).
Local Abbreviation install := (install_tool subprocess_run tools).
Local Abbreviation resolve := (install_dependencies subprocess_run tools).

Lemma run_trace e cmd (st : Machine World) :
  trace (snd (run subprocess_run e cmd st)) = trace st ++ [e].
Proof.
  unfold run. now destruct (subprocess_run cmd (world st)).
Qed.

(** Checking a tool runs its verification command and nothing else. *)
Lemma check_tool_installed_trace tool st :
  exists events,
    trace (snd (check tool st)) = trace st ++ events
    /\ forall x, ~ In (Installation x) events.
Proof.
  unfold check_tool_installed.
  destruct (lookup tool tools) as [info|].
  - exists [Verification tool]. split.
    + pose proof (run_trace (Verification tool) (verification info) st) as H.
      destruct (run subprocess_run (Verification tool) (verification info) st)
        as [[rc|] st1]; exact H.
    + intros x [H|[]]. discriminate.
  - exists []. split; [now rewrite app_nil_r | intros x []].
Qed.

(** A dependency that is missing and cannot be installed ends the loop
    with [return False], whatever was resolved before it. *)
Lemma install_dependencies_failure f before dependency after st st0 st1 st2 :
  resolve f before st = (Some true, st0) ->
  check dependency st0 = (false, st1) ->
  f dependency st1 = (Some false, st2) ->
  resolve f (before ++ dependency :: after) st = (Some false, st2).
Proof.
  revert st. induction before as [|d before IH]; intros st Hb Hc Hf.
  - simpl in Hb. injection Hb as ->. simpl. now rewrite Hc, Hf.
  - simpl in Hb |- *. destruct (check d st) as [[|] sta].
    + now apply IH.
    + destruct (f d sta) as [[[|]|] stb]; try discriminate.
      now apply IH.
Qed.

Lemma install_tool_failed_dependency fuel tool info before dependency after
      st st0 st1 st2 :
  lookup tool tools = Some info ->
  dependencies info = Some (before ++ dependency :: after) ->
  resolve (install fuel) before st = (Some true, st0) ->
  check dependency st0 = (false, st1) ->
  install fuel dependency st1 = (Some false, st2) ->
  install (S fuel) tool st = (Some false, st2).
Proof.
  intros Hl Hd Hb Hc Hf. cbn [install_tool]. rewrite Hl, Hd.
  now rewrite (install_dependencies_failure _ _ _ _ _ _ _ _ Hb Hc Hf).
Qed.

Lemma install_dependencies_trace f deps :
  (forall d, In d deps -> installs_only (requires tools d) (f d)) ->
  installs_only (fun x => exists d, In d deps /\ requires tools d x)
                (resolve f deps).
Proof.
  induction deps as [|d deps IH]; intros Hf st.
  - exists []. simpl. split; [now rewrite app_nil_r | intros x []].
  - simpl.
    destruct (check_tool_installed_trace d st) as [ev1 [H1 N1]].
    destruct (check d st) as [installed st1]. simpl in H1.
    assert (forall st', exists events,
               trace (snd (resolve f deps st')) = trace st' ++ events
               /\ forall x, In (Installation x) events ->
                            exists d', In d' (d :: deps)
                                       /\ requires tools d' x) as Hrest.
    { intro st'. destruct (IH (fun d' H => Hf d' (or_intror H)) st')
        as [ev [He Hx]].
      exists ev. split; [exact He|]. intros x Hin.
      destruct (Hx x Hin) as [d' [Hd' Hr]]. exists d'. split; [now right|].
      exact Hr. }
    destruct installed.
    + destruct (Hrest st1) as [ev2 [H2 N2]]. exists (ev1 ++ ev2). split.
      * now rewrite H2, H1, app_assoc.
      * intros x Hin. apply in_app_or in Hin. destruct Hin as [Hin|Hin];
          [now apply N1 in Hin | now apply N2].
    + destruct (Hf d (or_introl eq_refl) st1) as [ev2 [H2 N2]].
      assert (forall x, In (Installation x) (ev1 ++ ev2) ->
                        exists d', In d' (d :: deps) /\ requires tools d' x)
        as N12.
      { intros x Hin. apply in_app_or in Hin. destruct Hin as [Hin|Hin];
          [now apply N1 in Hin|]. exists d. split; [now left | now apply N2]. }
      destruct (f d st1) as [[[|]|] st2]; simpl in H2.
      * destruct (Hrest st2) as [ev3 [H3 N3]]. exists ((ev1 ++ ev2) ++ ev3).
        split; [now rewrite H3, H2, H1, !app_assoc|].
        intros x Hin. apply in_app_or in Hin. destruct Hin as [Hin|Hin];
          [now apply N12 | now apply N3].
      * exists (ev1 ++ ev2). cbn [snd].
        split; [now rewrite H2, H1, app_assoc | exact N12].
      * exists (ev1 ++ ev2). cbn [snd].
        split; [now rewrite H2, H1, app_assoc | exact N12].
Qed.

Lemma install_tool_trace fuel :
  forall tool, installs_only (requires tools tool) (install fuel tool).
Proof.
  induction fuel as [|fuel IH]; intros tool st.
  - exists []. simpl. split; [now rewrite app_nil_r | intros x []].
  - cbn [install_tool]. destruct (lookup tool tools) as [info|] eqn:Hl.
    2:{ exists []. simpl. split; [now rewrite app_nil_r | intros x []]. }
    assert (exists events,
               trace (snd (match dependencies info with
                           | Some deps => resolve (install fuel) deps st
                           | None => (Some true, st)
                           end)) = trace st ++ events
               /\ forall x, In (Installation x) events ->
                            requires tools tool x) as Hres.
    { destruct (dependencies info) as [deps|] eqn:Hd.
      - destruct (install_dependencies_trace (install fuel) deps
                    (fun d _ => IH d) st) as [ev [He Hx]].
        exists ev. split; [exact He|]. intros x Hin.
        destruct (Hx x Hin) as [d [Hin' Hr]].
        exact (requires_dependency tools tool info deps d x Hl Hd Hin' Hr).
      - exists []. simpl. split; [now rewrite app_nil_r | intros x []]. }
    destruct Hres as [ev1 [H1 N1]].
    destruct (match dependencies info with
              | Some deps => resolve (install fuel) deps st
              | None => (Some true, st)
              end) as [[[|]|] st1]; simpl in H1.
    + pose proof (run_trace (Installation tool) (installation info) st1) as H2.
      destruct (run subprocess_run (Installation tool) (installation info) st1)
        as [result st2]. simpl in H2.
      assert (forall x, In (Installation x) (ev1 ++ [Installation tool]) ->
                        requires tools tool x) as N2.
      { intros x Hin. apply in_app_or in Hin.
        destruct Hin as [Hin|[Hin|[]]]; [now apply N1|].
        injection Hin as <-. constructor. }
      assert (trace st2 = trace st ++ ev1 ++ [Installation tool]) as H2'
        by now rewrite H2, H1, app_assoc.
      destruct result as [rc|].
      * destruct (negb (rc =? 0)%Z).
        -- now exists (ev1 ++ [Installation tool]).
        -- destruct (check_tool_installed_trace tool st2) as [ev3 [H3 N3]].
           destruct (check tool st2) as [ok st3]. simpl in H3 |- *.
           exists ((ev1 ++ [Installation tool]) ++ ev3). split.
           ++ now rewrite H3, H2', !app_assoc.
           ++ intros x Hin. apply in_app_or in Hin.
              destruct Hin as [Hin|Hin]; [now apply N2 | now apply N3 in Hin].
      * now exists (ev1 ++ [Installation tool]).
    + now exists ev1.
    + now exists ev1.
Qed.

(** Without pending dependencies [install_tool] always reaches the
    installation command, also for a tool that is already installed. *)
Lemma install_tool_runs_installation fuel tool info st :
  lookup tool tools = Some info ->
  dependencies info = None ->
  exists later,
    trace (snd (install (S fuel) tool st)) =
    trace st ++ Installation tool :: later.
Proof.
  intros Hl Hd. cbn [install_tool]. rewrite Hl, Hd.
  pose proof (run_trace (Installation tool) (installation info) st) as H2.
  destruct (run subprocess_run (Installation tool) (installation info) st)
    as [[rc|] st2]; simpl in H2.
  - destruct (negb (rc =? 0)%Z); [now exists []|].
    destruct (check_tool_installed_trace tool st2) as [ev3 [H3 _]].
    destruct (check tool st2) as [ok st3]. simpl in H3 |- *.
    exists ev3. now rewrite H3, H2, <- app_assoc.
  - now exists [].
Qed.

End InstallerFacts.

(** C1.  When the verification command of a tool exits with status zero,
    the guarded call returns success after that one command: the trace
    grows by the verification alone, so neither the tool's installation
    command nor any other is run. *)
Theorem verified_tool_is_not_installed_again :
  forall (World : Type) (subprocess_run : string -> World -> RunOutcome * World)
         (tools : list (string * ToolInfo)) fuel tool info (st : Machine World),
    lookup tool tools = Some info ->
    fst (subprocess_run (verification info) (world st)) = Returned 0 ->
    fst (ensure_installed subprocess_run tools fuel tool st) = Some true
    /\ trace (snd (ensure_installed subprocess_run tools fuel tool st)) =
       trace st ++ [Verification tool].
Proof.
  intros World subprocess_run tools fuel tool info st Hl Hv.
  unfold ensure_installed, check_tool_installed, run. rewrite Hl.
  destruct (subprocess_run (verification info) (world st)) as [outcome w].
  simpl in Hv. subst outcome. simpl. now split.
Qed.

(** C1 on a host where git is installed. *)
Lemma verified_tool_is_not_installed_again_witness :
  fst (ensure_installed (Fixtures.host []) tools_cache 0 "git"
         (Fixtures.machine ["git"])) = Some true
  /\ trace (snd (ensure_installed (Fixtures.host []) tools_cache 0 "git"
                   (Fixtures.machine ["git"]))) = [] ++ [Verification "git"].
Proof.
  eapply (verified_tool_is_not_installed_again (list string)
            (Fixtures.host []) tools_cache 0 "git" _
            (Fixtures.machine ["git"])).
  - reflexivity.
  - reflexivity.
Defined.

(** ** The registry of the agent *)

(** The two entries of [tools_cache] that list dependencies. *)
Lemma tools_with_dependencies tool info deps :
  lookup tool tools_cache = Some info ->
  dependencies info = Some deps ->
  (tool = "node" /\ deps = ["nvm"]) \/ (tool = "npm" /\ deps = ["node"]).
Proof.
  intros Hl Hd. unfold tools_cache in Hl. cbn [lookup] in Hl.
  repeat match type of Hl with
         | (if String.eqb tool ?k then _ else _) = _ =>
             destruct (String.eqb_spec tool k) as [->|_];
             [injection Hl as <-; cbn [dependencies] in Hd;
              first [discriminate Hd | injection Hd as <-; auto]|]
         end.
  discriminate Hl.
Qed.

Lemma nvm_requires other : requires tools_cache "nvm" other -> other = "nvm".
Proof.
  intro H. inversion H as [|t info deps d o Hl Hd Hin Hr]; subst;
    [reflexivity|].
  destruct (tools_with_dependencies _ _ _ Hl Hd) as [[E _]|[E _]];
    discriminate E.
Qed.

Lemma node_requires other :
  requires tools_cache "node" other -> other = "node" \/ other = "nvm".
Proof.
  intro H. inversion H as [|t info deps d o Hl Hd Hin Hr]; subst;
    [now left|].
  destruct (tools_with_dependencies _ _ _ Hl Hd) as [[_ ->]|[E _]];
    [|discriminate E].
  destruct Hin as [<-|[]]. right. now apply nvm_requires.
Qed.

(** With [tools_cache] a recursion depth of three is enough: [install_tool]
    returns for every tool name. *)
Lemma install_tool_returns (World : Type)
      (subprocess_run : string -> World -> RunOutcome * World) fuel tool st :
  fst (install_tool subprocess_run tools_cache (3 + fuel) tool st) <> None.
Proof.
  assert (forall n t s, (forall info, lookup t tools_cache = Some info ->
                                      dependencies info = None) ->
            fst (install_tool subprocess_run tools_cache (S n) t s) <> None)
    as Hleaf.
  { intros n t s Hnone. cbn [install_tool].
    destruct (lookup t tools_cache) as [info|]; [|discriminate].
    rewrite (Hnone info eq_refl).
    destruct (run subprocess_run (Installation t) (installation info) s)
      as [[rc|] s2]; [|discriminate].
    destruct (negb (rc =? 0)%Z); [discriminate|].
    destruct (check_tool_installed subprocess_run tools_cache t s2).
    discriminate. }
  assert (forall n d t s,
             (forall info deps, lookup t tools_cache = Some info ->
                                dependencies info = Some deps -> deps = [d]) ->
             (forall s', fst (install_tool subprocess_run tools_cache n d s')
                         <> None) ->
             fst (install_tool subprocess_run tools_cache (S n) t s) <> None)
    as Hone.
  { intros n d t s Hdeps Hd. cbn [install_tool].
    destruct (lookup t tools_cache) as [info|]; [|discriminate].
    assert (fst (match dependencies info with
                 | Some deps =>
                     install_dependencies subprocess_run tools_cache
                       (install_tool subprocess_run tools_cache n) deps s
                 | None => (Some true, s)
                 end) <> None) as Hres.
    { destruct (dependencies info) as [deps|] eqn:E; [|discriminate].
      rewrite (Hdeps info deps eq_refl E). cbn [install_dependencies].
      destruct (check_tool_installed subprocess_run tools_cache d s)
        as [[|] s1]; [discriminate|].
      specialize (Hd s1).
      destruct (install_tool subprocess_run tools_cache n d s1)
        as [[[|]|] s2]; [discriminate|discriminate|now contradiction Hd]. }
    destruct (match dependencies info with
              | Some deps =>
                  install_dependencies subprocess_run tools_cache
                    (install_tool subprocess_run tools_cache n) deps s
              | None => (Some true, s)
              end) as [[[|]|] s1]; [|discriminate|now contradiction Hres].
    destruct (run subprocess_run (Installation t) (installation info) s1)
      as [[rc|] s2]; [|discriminate].
    destruct (negb (rc =? 0)%Z); [discriminate|].
    destruct (check_tool_installed subprocess_run tools_cache t s2).
    discriminate. }
  assert (forall n s, fst (install_tool subprocess_run tools_cache (S n)
                             "nvm" s) <> None) as Hnvm.
  { intros n s. apply Hleaf. intros info Hl.
    destruct (dependencies info) as [deps|] eqn:E; [|reflexivity].
    destruct (tools_with_dependencies _ _ _ Hl E) as [[E' _]|[E' _]];
      discriminate E'. }
  assert (forall n s, fst (install_tool subprocess_run tools_cache (S (S n))
                             "node" s) <> None) as Hnode.
  { intros n s. apply (Hone (S n) "nvm"); [|apply Hnvm].
    intros info deps Hl E.
    destruct (tools_with_dependencies _ _ _ Hl E) as [[_ ->]|[E' _]];
      [reflexivity | discriminate E']. }
  destruct (lookup tool tools_cache) as [info|] eqn:Hl.
  - destruct (dependencies info) as [deps|] eqn:Hd.
    + destruct (tools_with_dependencies _ _ _ Hl Hd) as [[-> _]|[-> _]].
      * apply Hnode.
      * apply (Hone (2 + fuel) "node"); [|apply Hnode].
        intros info' deps' Hl' E.
        destruct (tools_with_dependencies _ _ _ Hl' E) as [[E' _]|[_ ->]];
          [discriminate E' | reflexivity].
    + apply Hleaf. intros info' Hl'. congruence.
  - cbn [install_tool plus]. rewrite Hl. discriminate.
Qed.

(** C4.  For every tool of the registry that lists dependencies (each of
    them lists one, which is therefore the first the loop checks): when the
    dependency is not installed and installing it fails, [install_tool]
    returns [False] for the tool and the commands it has run do not include
    the tool's own installation command.  The same holds of the guarded
    call whenever it gets as far as the dependencies, that is, when the
    tool's own check has failed. *)
Theorem failed_dependency_aborts_installation :
  forall (World : Type) (subprocess_run : string -> World -> RunOutcome * World)
         fuel tool info deps dependency (st st1 : Machine World),
    lookup tool tools_cache = Some info ->
    dependencies info = Some deps ->
    In dependency deps ->
    check_tool_installed subprocess_run tools_cache dependency st
      = (false, st1) ->
    fst (install_tool subprocess_run tools_cache fuel dependency st1)
      = Some false ->
    (fst (install_tool subprocess_run tools_cache (S fuel) tool st)
       = Some false
     /\ exists events,
         trace (snd (install_tool subprocess_run tools_cache (S fuel) tool st))
           = trace st ++ events
         /\ ~ In (Installation tool) events)
    /\ forall st0,
        check_tool_installed subprocess_run tools_cache tool st0
          = (false, st) ->
        fst (ensure_installed subprocess_run tools_cache (S fuel) tool st0)
          = Some false
        /\ exists events,
            trace (snd (ensure_installed subprocess_run tools_cache (S fuel)
                          tool st0))
              = trace st0 ++ events
            /\ ~ In (Installation tool) events.
Proof.
  intros World subprocess_run fuel tool info deps dependency st st1
         Hl Hd Hin Hc Hf.
  destruct (install_tool subprocess_run tools_cache fuel dependency st1)
    as [r st2] eqn:Hi. simpl in Hf. subst r.
  assert (deps = [] ++ dependency :: []
          /\ ~ requires tools_cache dependency tool) as [Hdeps Hnot].
  { destruct (tools_with_dependencies _ _ _ Hl Hd) as [[-> ->]|[-> ->]];
      destruct Hin as [<-|[]]; (split; [reflexivity|]); intro Hr.
    - apply nvm_requires in Hr. discriminate Hr.
    - apply node_requires in Hr. destruct Hr as [Hr|Hr]; discriminate Hr. }
  rewrite Hdeps in Hd.
  assert (install_tool subprocess_run tools_cache (S fuel) tool st
          = (Some false, st2)) as Hdirect
    by exact (install_tool_failed_dependency World subprocess_run tools_cache
                fuel tool info [] dependency [] st st st1 st2
                Hl Hd eq_refl Hc Hi).
  destruct (check_tool_installed_trace World subprocess_run tools_cache
              dependency st) as [ev1 [H1 N1]].
  rewrite Hc in H1. cbn [snd] in H1.
  destruct (install_tool_trace World subprocess_run tools_cache fuel
              dependency st1) as [ev2 [H2 N2]].
  rewrite Hi in H2. cbn [snd] in H2.
  assert (~ In (Installation tool) (ev1 ++ ev2)) as Hclean.
  { intro Hin'. apply in_app_or in Hin'. destruct Hin' as [Hin'|Hin'].
    - now apply N1 in Hin'.
    - apply Hnot. now apply N2. }
  split.
  - rewrite Hdirect. split; [reflexivity|]. cbn [snd].
    exists (ev1 ++ ev2). split; [now rewrite H2, H1, app_assoc | exact Hclean].
  - intros st0 Hc0. unfold ensure_installed. rewrite Hc0, Hdirect.
    split; [reflexivity|]. cbn [snd].
    destruct (check_tool_installed_trace World subprocess_run tools_cache
                tool st0) as [ev0 [H0 N0]].
    rewrite Hc0 in H0. cbn [snd] in H0.
    exists (ev0 ++ ev1 ++ ev2). split.
    + now rewrite H2, H1, H0, !app_assoc.
    + intro Hin'. apply in_app_or in Hin'. destruct Hin' as [Hin'|Hin'].
      * now apply N0 in Hin'.
      * now apply Hclean.
Qed.

(** C4 on a host without nvm and without node where installing nvm fails:
    installing node fails, directly and through the guarded call, and only
    verifications and nvm's installation are run. *)
Lemma failed_dependency_aborts_installation_witness :
  fst (install_tool (Fixtures.host ["nvm"]) tools_cache 3 "node"
         (snd (check_tool_installed (Fixtures.host ["nvm"]) tools_cache "node"
                 (Fixtures.machine [])))) = Some false
  /\ fst (ensure_installed (Fixtures.host ["nvm"]) tools_cache 3 "node"
            (Fixtures.machine [])) = Some false
  /\ exists events,
      trace (snd (ensure_installed (Fixtures.host ["nvm"]) tools_cache 3
                    "node" (Fixtures.machine []))) = [] ++ events
      /\ ~ In (Installation "node") events.
Proof.
  edestruct (failed_dependency_aborts_installation (list string)
               (Fixtures.host ["nvm"]) 2 "node"
               (match lookup "node" tools_cache with
                | Some node_info => node_info
                | None => Build_ToolInfo EmptyString EmptyString None
                end)
               ["nvm"] "nvm"
               (snd (check_tool_installed (Fixtures.host ["nvm"]) tools_cache
                       "node" (Fixtures.machine []))))
    as [[Hdirect _] Hguarded].
  - reflexivity.
  - reflexivity.
  - simpl. tauto.
  - reflexivity.
  - reflexivity.
  - split; [exact Hdirect|].
    exact (Hguarded (Fixtures.machine []) eq_refl).
Defined.

(** ** Project discovery *)

Section DiscoveryFacts.

Variable get_contents : string -> Contents.
Variable b64decode_utf8 : string -> option string.

Local Abbreviation probe' := (probe get_contents b64decode_utf8).
Local Abbreviation loop := (discover_loop get_contents b64decode_utf8).
Local Abbreviation kept := (has_readme get_contents b64decode_utf8).

Lemma discover_loop_acc contents projects :
  loop contents projects = projects ++ loop contents [].
Proof.
  revert projects.
  induction contents as [|content rest IH]; intro projects; simpl.
  - now rewrite app_nil_r.
  - destruct (String.eqb (ContentFile.type content) "dir"); [|apply IH].
    destruct (probe' content) as [project|]; [|apply IH].
    rewrite IH, (IH [project]). now rewrite app_assoc.
Qed.

(** One pass of the loop: the entry gives its project when it is a
    directory with a readable README.md and nothing otherwise, and the
    loop goes on either way. *)
Lemma discover_loop_cons content rest :
  loop (content :: rest) [] =
  (if kept content then project_of get_contents b64decode_utf8 content
   else []) ++ loop rest [].
Proof.
  simpl. unfold has_readme, project_of.
  destruct (String.eqb (ContentFile.type content) "dir"); [|reflexivity].
  destruct (probe' content) as [project|]; [|reflexivity].
  simpl. apply discover_loop_acc.
Qed.

Lemma discover_loop_app before after :
  loop (before ++ after) [] = loop before [] ++ loop after [].
Proof.
  induction before as [|content before IH]; [reflexivity|].
  change ((content :: before) ++ after) with (content :: (before ++ after)).
  rewrite !discover_loop_cons, IH. now rewrite app_assoc.
Qed.

Lemma probe_fields content project :
  probe' content = Some project ->
  Project.name project = ContentFile.name content
  /\ Project.path project = ContentFile.path content
  /\ exists body,
      get_contents (ContentFile.path content ++ "/README.md")%string = File body
      /\ b64decode_utf8 body = Some (Project.readme_content project).
Proof.
  unfold probe.
  destruct (get_contents (ContentFile.path content ++ "/README.md")%string)
    as [entries|body|]; try discriminate.
  destruct (b64decode_utf8 body) as [readme|] eqn:E; [|discriminate].
  intro H. injection H as <-. simpl. repeat split. now exists body.
Qed.

Lemma discover_loop_names contents :
  map (fun project => (Project.name project, Project.path project))
      (loop contents []) =
  map (fun content => (ContentFile.name content, ContentFile.path content))
      (filter kept contents).
Proof.
  induction contents as [|content rest IH]; [reflexivity|].
  rewrite discover_loop_cons, map_app, IH. cbn [filter].
  unfold has_readme, project_of.
  destruct (String.eqb (ContentFile.type content) "dir"); [|reflexivity].
  destruct (probe' content) as [project|] eqn:E; [|reflexivity].
  destruct (probe_fields content project E) as [Hn [Hp _]].
  simpl. now rewrite Hn, Hp.
Qed.

Lemma discover_loop_readmes contents :
  Forall (fun project =>
            exists body,
              get_contents (Project.path project ++ "/README.md")%string = File body
              /\ b64decode_utf8 body = Some (Project.readme_content project))
         (loop contents []).
Proof.
  induction contents as [|content rest IH]; [constructor|].
  rewrite discover_loop_cons. apply Forall_app. split; [|exact IH].
  unfold project_of. destruct (kept content); [|constructor].
  destruct (probe' content) as [project|] eqn:E; [|constructor].
  constructor; [|constructor].
  destruct (probe_fields content project E) as [_ [Hp Hb]].
  now rewrite Hp.
Qed.

End DiscoveryFacts.

Lemma discover_loop_expected get_contents b64decode_utf8 contents :
  discover_loop get_contents b64decode_utf8 contents [] =
  projects_with_readme get_contents b64decode_utf8 contents.
Proof.
  induction contents as [|content rest IH]; [reflexivity|].
  rewrite discover_loop_cons, IH. unfold projects_with_readme.
  cbn [flat_map]. f_equal.
  unfold has_readme, project_of, readme_of_directory, probe.
  destruct (String.eqb (ContentFile.type content) "dir"); [|reflexivity].
  destruct (get_contents (ContentFile.path content ++ "/README.md")%string)
    as [entries|body|]; try reflexivity.
  now destruct (b64decode_utf8 body).
Qed.

(** C5.  Given the listing of the root, discovery returns exactly one
    project for each listed directory whose README.md is fetched and
    decoded, and none for any other entry, in the order of the listing;
    each project carries the directory's name and path and the decoded
    README.  An entry whose README cannot be fetched or decoded is passed
    over and the rest of the listing is still visited: the result is the
    one for the listing without the entry. *)
Theorem discovery_keeps_directories_with_readme :
  forall get_contents b64decode_utf8 contents,
    get_contents EmptyString = Listing contents ->
    exists projects,
      discover_projects get_contents b64decode_utf8 = Some projects
      /\ projects = projects_with_readme get_contents b64decode_utf8 contents
      /\ (forall content body readme,
             In content contents ->
             ContentFile.type content = "dir" ->
             get_contents (ContentFile.path content ++ "/README.md")%string
               = File body ->
             b64decode_utf8 body = Some readme ->
             In {| Project.name := ContentFile.name content;
                   Project.path := ContentFile.path content;
                   Project.readme_content := readme |} projects)
      /\ (forall project,
             In project projects ->
             exists content body,
               In content contents
               /\ ContentFile.type content = "dir"
               /\ Project.name project = ContentFile.name content
               /\ Project.path project = ContentFile.path content
               /\ get_contents (ContentFile.path content ++ "/README.md")%string
                  = File body
               /\ b64decode_utf8 body
                  = Some (Project.readme_content project))
      /\ forall before content after,
          contents = before ++ content :: after ->
          readme_of_directory get_contents b64decode_utf8 content = None ->
          projects =
          projects_with_readme get_contents b64decode_utf8 (before ++ after).
Proof.
  intros get_contents b64decode_utf8 contents Hroot.
  exists (discover_loop get_contents b64decode_utf8 contents []).
  unfold discover_projects. rewrite Hroot, discover_loop_expected.
  split; [reflexivity|]. split; [reflexivity|]. split; [|split].
  - intros content body readme Hin Htype Hget Hdec.
    unfold projects_with_readme. apply in_flat_map. exists content.
    split; [exact Hin|]. unfold readme_of_directory.
    rewrite Htype, String.eqb_refl, Hget, Hdec. now left.
  - intros project Hin. unfold projects_with_readme in Hin.
    apply in_flat_map in Hin. destruct Hin as [content [Hc Hp]].
    unfold readme_of_directory in Hp.
    destruct (String.eqb_spec (ContentFile.type content) "dir") as [Ht|_];
      [|contradiction].
    destruct (get_contents (ContentFile.path content ++ "/README.md")%string)
      as [entries|body|] eqn:Hget; try contradiction.
    destruct (b64decode_utf8 body) as [readme|] eqn:Hdec; [|contradiction].
    destruct Hp as [<-|[]]. exists content, body. simpl. repeat split;
      assumption.
  - intros before content after -> Hnone. unfold projects_with_readme.
    rewrite !flat_map_app. cbn [flat_map]. now rewrite Hnone.
Qed.

(** C5 on a repository of five directories and a file: the three
    directories whose README is fetched are returned, in listing order;
    the two whose fetch raises and the file are not. *)
Lemma discovery_keeps_directories_with_readme_witness :
  discover_projects Fixtures.repo Fixtures.decoded =
  Some [ {| Project.name := "api"; Project.path := "api";
            Project.readme_content := "api readme" |};
         {| Project.name := "web"; Project.path := "web";
            Project.readme_content := "web readme" |};
         {| Project.name := "worker"; Project.path := "worker";
            Project.readme_content := "worker readme" |} ].
Proof.
  destruct (discovery_keeps_directories_with_readme Fixtures.repo
              Fixtures.decoded Fixtures.root eq_refl)
    as [projects [Hdiscovered [Hprojects _]]].
  rewrite Hdiscovered, Hprojects. reflexivity.
Defined.

(** Five directories, three projects, in listing order. *)
Example discovery_five_directories :
  option_map (map Project.name)
             (discover_projects Fixtures.repo Fixtures.decoded)
  = Some ["api"; "web"; "worker"].
Proof. reflexivity. Qed.

(* ================================================================= *)
(** * Further properties *)

(** ** The installer *)

(** X1.  A name that is not in the registry is refused at once: the check
    says "not installed", [install_tool] and the guarded call return
    [False], and no command is run. *)
Theorem unknown_tool_is_refused :
  forall (World : Type) (subprocess_run : string -> World -> RunOutcome * World)
         (tools : list (string * ToolInfo)) fuel tool (st : Machine World),
    lookup tool tools = None ->
    check_tool_installed subprocess_run tools tool st = (false, st)
    /\ install_tool subprocess_run tools (S fuel) tool st = (Some false, st)
    /\ ensure_installed subprocess_run tools (S fuel) tool st
       = (Some false, st).
Proof.
  intros World subprocess_run tools fuel tool st Hl.
  assert (check_tool_installed subprocess_run tools tool st = (false, st))
    as Hc by (unfold check_tool_installed; now rewrite Hl).
  assert (install_tool subprocess_run tools (S fuel) tool st = (Some false, st))
    as Hi by (cbn [install_tool]; now rewrite Hl).
  repeat split; try assumption.
  unfold ensure_installed. now rewrite Hc, Hi.
Qed.

Lemma unknown_tool_is_refused_witness :
  check_tool_installed (Fixtures.host []) tools_cache "rustc"
    (Fixtures.machine []) = (false, Fixtures.machine [])
  /\ install_tool (Fixtures.host []) tools_cache 1 "rustc"
       (Fixtures.machine []) = (Some false, Fixtures.machine [])
  /\ ensure_installed (Fixtures.host []) tools_cache 1 "rustc"
       (Fixtures.machine []) = (Some false, Fixtures.machine []).
Proof.
  exact (unknown_tool_is_refused (list string) (Fixtures.host []) tools_cache
           0 "rustc" (Fixtures.machine []) eq_refl).
Defined.

(** What a successful [install_tool] has done. *)
Lemma install_tool_success :
  forall (World : Type) (subprocess_run : string -> World -> RunOutcome * World)
         (tools : list (string * ToolInfo)) fuel tool (st : Machine World),
    fst (install_tool subprocess_run tools fuel tool st) = Some true ->
    exists info st1 w2 w3,
      lookup tool tools = Some info
      /\ (exists earlier, trace st1 = trace st ++ earlier)
      /\ subprocess_run (installation info) (world st1) = (Returned 0, w2)
      /\ subprocess_run (verification info) w2 = (Returned 0, w3)
      /\ snd (install_tool subprocess_run tools fuel tool st)
         = {| world := w3;
              trace := trace st1 ++ [Installation tool; Verification tool] |}.
Proof.
  intros World subprocess_run tools fuel tool st H.
  destruct fuel as [|fuel]; [discriminate H|].
  cbn [install_tool] in H |- *.
  destruct (lookup tool tools) as [info|] eqn:Hl; [|discriminate H].
  pose proof (install_dependencies_trace World subprocess_run tools
                (install_tool subprocess_run tools fuel)) as Hdeps.
  assert (exists earlier,
             trace (snd (match dependencies info with
                         | Some deps =>
                             install_dependencies subprocess_run tools
                               (install_tool subprocess_run tools fuel) deps st
                         | None => (Some true, st)
                         end)) = trace st ++ earlier) as Hearlier.
  { destruct (dependencies info) as [deps|].
    - destruct (Hdeps deps
                  (fun d _ => install_tool_trace World subprocess_run tools
                                fuel d) st) as [ev [He _]].
      now exists ev.
    - exists []. simpl. now rewrite app_nil_r. }
  destruct (match dependencies info with
            | Some deps =>
                install_dependencies subprocess_run tools
                  (install_tool subprocess_run tools fuel) deps st
            | None => (Some true, st)
            end) as [[[|]|] st1]; try discriminate H.
  cbn [snd] in Hearlier. unfold run in H |- *.
  destruct (subprocess_run (installation info) (world st1)) as [[rc|] w2] eqn:Hi;
    [|discriminate H].
  destruct (Z.eqb_spec rc 0) as [->|Hrc]; [|discriminate H].
  cbn [negb] in H |- *. unfold check_tool_installed, run in H |- *.
  rewrite Hl in H |- *. cbn [world trace] in H |- *.
  destruct (subprocess_run (verification info) w2) as [[rc'|] w3] eqn:Hv;
    [|discriminate H].
  cbn [fst snd] in H |- *. injection H as H.
  apply Z.eqb_eq in H. subst rc'.
  exists info, st1, w2, w3. repeat split; try assumption.
  now rewrite <- app_assoc.
Qed.

(** X2.  [install_tool] reports success only after the installation
    command has exited with status zero and the verification command, run
    right after it, has exited with status zero too: these two commands are
    the last ones of the run. *)
Theorem install_success_is_verified :
  forall (World : Type) (subprocess_run : string -> World -> RunOutcome * World)
         (tools : list (string * ToolInfo)) fuel tool (st : Machine World),
    fst (install_tool subprocess_run tools fuel tool st) = Some true ->
    exists info st1 w2 w3,
      lookup tool tools = Some info
      /\ (exists earlier, trace st1 = trace st ++ earlier)
      /\ subprocess_run (installation info) (world st1) = (Returned 0, w2)
      /\ subprocess_run (verification info) w2 = (Returned 0, w3)
      /\ snd (install_tool subprocess_run tools fuel tool st)
         = {| world := w3;
              trace := trace st1 ++ [Installation tool; Verification tool] |}.
Proof.
  intros World subprocess_run tools fuel tool st H.
  exact (install_tool_success World subprocess_run tools fuel tool st H).
Qed.

Lemma install_success_is_verified_witness :
  exists info st1 w2 w3,
    lookup "git" tools_cache = Some info
    /\ (exists earlier, trace st1 = trace (Fixtures.machine []) ++ earlier)
    /\ Fixtures.host [] (installation info) (world st1) = (Returned 0, w2)
    /\ Fixtures.host [] (verification info) w2 = (Returned 0, w3)
    /\ snd (install_tool (Fixtures.host []) tools_cache 1 "git"
              (Fixtures.machine []))
       = {| world := w3;
            trace := trace st1 ++ [Installation "git"; Verification "git"] |}.
Proof.
  exact (install_success_is_verified (list string) (Fixtures.host [])
           tools_cache 1 "git" (Fixtures.machine []) eq_refl).
Defined.

(** X3.  Whatever the registry and the host, a run of [install_tool] or of
    the guarded call only adds to the trace, and the installation commands
    it runs are those of the tool and of the tools it requires, directly or
    through other dependencies. *)
Theorem only_required_tools_are_installed :
  forall (World : Type) (subprocess_run : string -> World -> RunOutcome * World)
         (tools : list (string * ToolInfo)) fuel tool (st : Machine World),
    (exists events,
        trace (snd (install_tool subprocess_run tools fuel tool st))
          = trace st ++ events
        /\ forall x, In (Installation x) events -> requires tools tool x)
    /\ (exists events,
           trace (snd (ensure_installed subprocess_run tools fuel tool st))
             = trace st ++ events
           /\ forall x, In (Installation x) events -> requires tools tool x).
Proof.
  intros World subprocess_run tools fuel tool st. split.
  - exact (install_tool_trace World subprocess_run tools fuel tool st).
  - unfold ensure_installed.
    destruct (check_tool_installed_trace World subprocess_run tools tool st)
      as [ev0 [H0 N0]].
    destruct (check_tool_installed subprocess_run tools tool st)
      as [[|] st1]; cbn [snd] in H0 |- *.
    + exists ev0. split; [exact H0|]. intros x Hx. now apply N0 in Hx.
    + destruct (install_tool_trace World subprocess_run tools fuel tool st1)
        as [ev1 [H1 N1]].
      exists (ev0 ++ ev1). split; [now rewrite H1, H0, app_assoc|].
      intros x Hx. apply in_app_or in Hx. destruct Hx as [Hx|Hx];
        [now apply N0 in Hx | now apply N1].
Qed.

Section InstallerOrder.

Variable World : Type.
Variable subprocess_run : string -> World -> RunOutcome * World.
Variable tools : list (string * ToolInfo).

Local Abbreviation check := (check_tool_installed subprocess_run tools).
Local Abbreviation install := (install_tool subprocess_run tools).
Local Abbreviation resolve := (install_dependencies subprocess_run tools).

(** A check that says "installed" has run the verification command. *)
Lemma check_true_trace tool st :
  fst (check tool st) = true ->
  trace (snd (check tool st)) = trace st ++ [Verification tool].
Proof.
  unfold check_tool_installed, run.
  destruct (lookup tool tools) as [info|]; [|discriminate].
  now destruct (subprocess_run (verification info) (world st)) as [[rc|] w].
Qed.

(** A successful installation ends with the verification of the tool. *)
Lemma install_true_trace fuel tool st :
  fst (install fuel tool st) = Some true ->
  exists events,
    trace (snd (install fuel tool st)) = trace st ++ events
    /\ In (Verification tool) events.
Proof.
  intro H.
  destruct (install_tool_success World subprocess_run tools fuel tool st H)
    as [info [st1 [w2 [w3 [_ [[earlier He] [_ [_ Hs]]]]]]]].
  exists (earlier ++ [Installation tool; Verification tool]).
  rewrite Hs. cbn [trace]. split.
  - now rewrite He, <- app_assoc.
  - apply in_or_app. right. right. now left.
Qed.

(** When the dependency loop runs to its end, every dependency has been
    verified on the way. *)
Lemma install_dependencies_verified fuel deps st :
  fst (resolve (install fuel) deps st) = Some true ->
  exists events,
    trace (snd (resolve (install fuel) deps st)) = trace st ++ events
    /\ forall d, In d deps -> In (Verification d) events.
Proof.
  revert st. induction deps as [|d deps IH]; intros st H.
  - exists []. simpl. split; [now rewrite app_nil_r | intros d []].
  - cbn [install_dependencies] in H |- *.
    pose proof (check_true_trace d st) as Hc.
    destruct (check_tool_installed_trace World subprocess_run tools d st)
      as [ev0 [H0 _]].
    destruct (check d st) as [[|] st1]; cbn [fst snd] in Hc, H0.
    + specialize (Hc eq_refl). destruct (IH st1 H) as [ev [He Hd]].
      exists ([Verification d] ++ ev). split.
      * now rewrite He, Hc, app_assoc.
      * intros x [<-|Hx]; [now left | right; now apply Hd].
    + pose proof (install_true_trace fuel d st1) as Hi.
      destruct (install fuel d st1) as [[[|]|] st2]; try discriminate H.
      cbn [fst snd] in Hi. destruct (Hi eq_refl) as [ev1 [H1 Hv]].
      destruct (IH st2 H) as [ev [He Hd]].
      exists (ev0 ++ ev1 ++ ev). split.
      * now rewrite He, H1, H0, !app_assoc.
      * intros x [<-|Hx].
        -- apply in_or_app. right. apply in_or_app. now left.
        -- apply in_or_app. right. apply in_or_app. right. now apply Hd.
Qed.

End InstallerOrder.

(** X4.  When [install_tool] succeeds for a tool that lists dependencies,
    the verification command of every dependency was run earlier in the
    same call, before the tool's own installation command. *)
Theorem dependencies_are_verified_first :
  forall (World : Type) (subprocess_run : string -> World -> RunOutcome * World)
         (tools : list (string * ToolInfo)) fuel tool info deps
         (st : Machine World),
    lookup tool tools = Some info ->
    dependencies info = Some deps ->
    fst (install_tool subprocess_run tools fuel tool st) = Some true ->
    exists before,
      trace (snd (install_tool subprocess_run tools fuel tool st))
        = trace st ++ before ++ [Installation tool; Verification tool]
      /\ forall d, In d deps -> In (Verification d) before.
Proof.
  intros World subprocess_run tools fuel tool info deps st Hl Hd H.
  destruct fuel as [|fuel]; [discriminate H|].
  cbn [install_tool] in H |- *. rewrite Hl, Hd in H |- *.
  pose proof (install_dependencies_verified World subprocess_run tools
                fuel deps st) as Hdeps.
  destruct (install_dependencies subprocess_run tools
              (install_tool subprocess_run tools fuel) deps st)
    as [[[|]|] st1]; try discriminate H.
  destruct (Hdeps eq_refl) as [before [Hb Hv]]. cbn [snd] in Hb.
  exists before. split; [|exact Hv].
  unfold run in H |- *.
  destruct (subprocess_run (installation info) (world st1)) as [[rc|] w2];
    [|discriminate H].
  destruct (negb (rc =? 0)%Z); [discriminate H|].
  unfold check_tool_installed, run in H |- *. rewrite Hl in H |- *.
  cbn [world trace] in H |- *.
  destruct (subprocess_run (verification info) w2) as [[rc'|] w3];
    [|discriminate H].
  cbn [snd trace]. now rewrite Hb, <- !app_assoc.
Qed.

Lemma dependencies_are_verified_first_witness :
  exists before,
    trace (snd (install_tool (Fixtures.host []) tools_cache 3 "npm"
                  (Fixtures.machine [])))
      = [] ++ before ++ [Installation "npm"; Verification "npm"]
    /\ forall d, In d ["node"] -> In (Verification d) before.
Proof.
  exact (dependencies_are_verified_first (list string) (Fixtures.host [])
           tools_cache 3 "npm"
           (match lookup "npm" tools_cache with
            | Some npm_info => npm_info
            | None => Build_ToolInfo EmptyString EmptyString None
            end)
           ["node"] (Fixtures.machine []) eq_refl eq_refl eq_refl).
Defined.

(** What the loop over the detected tools runs. *)
Lemma install_detected_tools_trace :
  forall (World : Type) (subprocess_run : string -> World -> RunOutcome * World)
         (tools : list (string * ToolInfo)) fuel detected (st : Machine World),
    exists events,
      trace (install_detected_tools subprocess_run tools fuel detected st)
        = trace st ++ events
      /\ (forall tool, In tool detected -> lookup tool tools <> None ->
                       In (Verification tool) events)
      /\ (forall x, In (Installation x) events ->
                    exists tool, In tool detected /\ requires tools tool x).
Proof.
  intros World subprocess_run tools fuel detected.
  induction detected as [|tool rest IH]; intro st.
  - exists []. simpl. rewrite app_nil_r. repeat split.
    + intros tool [].
    + intros x [].
  - cbn [install_detected_tools].
    assert (exists ev0,
               trace (snd (ensure_installed subprocess_run tools fuel tool st))
                 = trace st ++ ev0
               /\ (lookup tool tools <> None -> In (Verification tool) ev0)
               /\ forall x, In (Installation x) ev0 -> requires tools tool x)
      as [ev0 [H0 [V0 N0]]].
    { unfold ensure_installed.
      assert (exists evc,
                 trace (snd (check_tool_installed subprocess_run tools tool st))
                   = trace st ++ evc
                 /\ (lookup tool tools <> None -> In (Verification tool) evc)
                 /\ forall x, ~ In (Installation x) evc) as [evc [Hc [Vc Nc]]].
      { unfold check_tool_installed, run.
        destruct (lookup tool tools) as [info|].
        - exists [Verification tool].
          destruct (subprocess_run (verification info) (world st))
            as [[rc|] w]; (repeat split; [now left | intros x [Hx|[]];
                                                     discriminate Hx]).
        - exists []. cbn [snd]. rewrite app_nil_r.
          repeat split; [intro Hn; now contradiction Hn | intros x []]. }
      destruct (check_tool_installed subprocess_run tools tool st)
        as [[|] st1]; cbn [snd] in Hc |- *.
      - exists evc. repeat split; try assumption.
        intros x Hx. now apply Nc in Hx.
      - destruct (install_tool_trace World subprocess_run tools fuel tool st1)
          as [ev1 [H1 N1]].
        exists (evc ++ ev1). repeat split.
        + now rewrite H1, Hc, app_assoc.
        + intro Hk. apply in_or_app. left. now apply Vc.
        + intros x Hx. apply in_app_or in Hx. destruct Hx as [Hx|Hx];
            [now apply Nc in Hx | now apply N1]. }
    destruct (IH (snd (ensure_installed subprocess_run tools fuel tool st)))
      as [ev [He [Hv Hn]]].
    exists (ev0 ++ ev). repeat split.
    + now rewrite He, H0, app_assoc.
    + intros t [<-|Ht] Hk; apply in_or_app; [left; now apply V0|].
      right. now apply Hv.
    + intros x Hx. apply in_app_or in Hx. destruct Hx as [Hx|Hx].
      * exists tool. split; [now left | now apply N0].
      * destruct (Hn x Hx) as [t [Ht Hr]]. exists t. split; [now right|].
        exact Hr.
Qed.

(** X5.  The loop of [setup_environment_for_project] over the detected
    tools goes through the whole list whatever happens to each tool: every
    listed tool that the registry knows has its verification command run,
    and an installation command is run only for a listed tool or for a
    tool that a listed one requires. *)
Theorem setup_loop_covers_every_tool :
  forall (World : Type) (subprocess_run : string -> World -> RunOutcome * World)
         (tools : list (string * ToolInfo)) fuel detected (st : Machine World),
    exists events,
      trace (install_detected_tools subprocess_run tools fuel detected st)
        = trace st ++ events
      /\ (forall tool, In tool detected -> lookup tool tools <> None ->
                       In (Verification tool) events)
      /\ (forall x, In (Installation x) events ->
                    exists tool, In tool detected /\ requires tools tool x).
Proof.
  intros World subprocess_run tools fuel detected st.
  destruct (install_detected_tools_trace World subprocess_run tools fuel
              detected st) as [events [Htrace [Hverified Hinstalled]]].
  exists events. repeat split; assumption.
Qed.

(** ** Tool detection *)

Lemma detect_loop_filter patterns readme_content tools :
  detect_loop patterns readme_content tools =
  tools ++ map fst (filter (fun entry => search (snd entry) readme_content)
                           patterns).
Proof.
  revert tools. induction patterns as [|[tool pattern] rest IH]; intro tools.
  - simpl. now rewrite app_nil_r.
  - cbn [detect_loop filter snd].
    destruct (search pattern readme_content); rewrite IH.
    + cbn [map fst]. now rewrite <- app_assoc.
    + reflexivity.
Qed.

Lemma NoDup_map_filter {A B : Type} (f : A -> B) (keep : A -> bool) l :
  NoDup (map f l) -> NoDup (map f (filter keep l)).
Proof.
  induction l as [|a l IH]; simpl; intro H; [constructor|].
  inversion H as [|x xs Hnot Hrest]; subst.
  destruct (keep a); [|now apply IH].
  simpl. constructor; [|now apply IH].
  intro Hin. apply Hnot. apply in_map_iff in Hin.
  destruct Hin as [y [Hy Hin]]. apply filter_In in Hin.
  apply in_map_iff. exists y. tauto.
Qed.

(** X6.  The detected tools are the keys of the pattern table whose
    pattern is found in the text, in the order of the table, each at most
    once. *)
Theorem detected_tools_follow_the_table :
  forall readme_content,
    detect_tools readme_content =
      map fst (filter (fun entry => search (snd entry) readme_content)
                      tool_patterns)
    /\ NoDup (detect_tools readme_content).
Proof.
  intro readme_content.
  assert (detect_tools readme_content =
          map fst (filter (fun entry => search (snd entry) readme_content)
                          tool_patterns)) as H
    by (unfold detect_tools; now rewrite detect_loop_filter).
  split; [exact H|]. rewrite H. apply NoDup_map_filter.
  change (map fst tool_patterns)
    with ["java"; "maven"; "gradle"; "node"; "npm"; "python3"; "docker";
          "docker-compose"; "git"; "mongodb"; "postgresql"; "mysql";
          "redis"; "vscode"; "intellij-idea"].
  repeat (constructor; [simpl; intuition discriminate|]). constructor.
Qed.

Lemma word_after_lower_text s : word_after (lower s) = word_after s.
Proof. destruct s as [|c s]; [reflexivity|]. simpl. apply is_word_lower. Qed.

Lemma word_before_lower_char prev :
  word_before (option_map lower_ascii prev) = word_before prev.
Proof. destruct prev as [c|]; [|reflexivity]. simpl. apply is_word_lower. Qed.

Lemma same_char_lower x c : same_char (lower_ascii x) c = same_char x c.
Proof. unfold same_char. now rewrite lower_ascii_idem. Qed.

(** Matching does not look at the case of the text. *)
Lemma match_at_lower r :
  forall prev s k k',
    (forall p s', k' (option_map lower_ascii p) (lower s') = k p s') ->
    match_at r (option_map lower_ascii prev) (lower s) k' = match_at r prev s k.
Proof.
  induction r as [|c|cs| |r1 IH1 r2 IH2|r1 IH1 r2 IH2|r1 IH1];
    intros prev s k k' Hk; cbn [match_at].
  - apply Hk.
  - destruct s as [|x rest]; [reflexivity|]. cbn [lower].
    rewrite same_char_lower. f_equal. exact (Hk (Some x) rest).
  - destruct s as [|x rest]; [reflexivity|]. cbn [lower]. f_equal.
    + induction cs as [|c cs IHcs]; [reflexivity|]. simpl.
      now rewrite same_char_lower, IHcs.
    + exact (Hk (Some x) rest).
  - rewrite word_before_lower_char, word_after_lower_text.
    destruct (xorb (word_before prev) (word_after s)); [apply Hk|reflexivity].
  - apply IH1. intros p s'. now apply IH2.
  - now rewrite (IH1 prev s k k' Hk), (IH2 prev s k k' Hk).
  - now rewrite (IH1 prev s k k' Hk), Hk.
Qed.

Lemma search_from_lower r s :
  forall prev,
    search_from r (option_map lower_ascii prev) (lower s) = search_from r prev s.
Proof.
  induction s as [|c s IH]; intro prev.
  - pose proof (match_at_lower r prev EmptyString (fun _ _ => true)
                  (fun _ _ => true) (fun _ _ => eq_refl)) as E.
    cbn [lower] in E. cbn [search_from lower]. now rewrite E.
  - pose proof (match_at_lower r prev (String c s) (fun _ _ => true)
                  (fun _ _ => true) (fun _ _ => eq_refl)) as E.
    cbn [lower] in E. cbn [search_from lower]. rewrite E.
    destruct (match_at r prev (String c s) (fun _ _ => true)); [reflexivity|].
    exact (IH (Some c)).
Qed.

Lemma detect_tools_lower readme_content :
  detect_tools (lower readme_content) = detect_tools readme_content.
Proof.
  unfold detect_tools. rewrite !detect_loop_filter.
  f_equal. f_equal. apply filter_ext. intros [tool pattern]. cbn [snd].
  unfold search. exact (search_from_lower pattern readme_content None).
Qed.

(** X7.  On text of 7-bit characters detection does not depend on letter
    case: two such texts that differ only in the case of their letters
    give the same tools. *)
Theorem detection_ignores_case :
  forall text other,
    seven_bit text = true ->
    seven_bit other = true ->
    lower text = lower other ->
    detect_tools text = detect_tools other.
Proof.
  intros text other _ _ Hsame.
  rewrite <- (detect_tools_lower text), <- (detect_tools_lower other).
  now rewrite Hsame.
Qed.

Lemma detection_ignores_case_witness :
  detect_tools "Install DOCKER, then Git clone"
  = detect_tools "install docker, THEN GIT CLONE".
Proof.
  exact (detection_ignores_case "Install DOCKER, then Git clone"
           "install docker, THEN GIT CLONE" eq_refl eq_refl eq_refl).
Defined.

(** A match found by the scan starts at some offset. *)
Lemma search_from_inv r s :
  forall prev,
    search_from r prev s = true ->
    exists before rest,
      s = (before ++ rest)%string
      /\ match_at r (match last_char before with
                     | Some c => Some c
                     | None => prev
                     end) rest (fun _ _ => true) = true.
Proof.
  induction s as [|c s IH]; intros prev H; cbn [search_from] in H.
  - destruct (match_at r prev EmptyString (fun _ _ => true)) eqn:E;
      [|discriminate H].
    now exists EmptyString, EmptyString.
  - destruct (match_at r prev (String c s) (fun _ _ => true)) eqn:E.
    + now exists EmptyString, (String c s).
    + destruct (IH (Some c) H) as [before [rest [-> Hm]]].
      exists (String c before), rest. split; [reflexivity|].
      rewrite last_char_cons. now destruct (last_char before).
Qed.

(** What a literal has matched. *)
Lemma match_at_lit_inv s :
  forall prev text k,
    match_at (lit s) prev text k = true ->
    exists w rest,
      text = (w ++ rest)%string /\ lower w = lower s
      /\ k (match last_char w with Some c => Some c | None => prev end) rest
         = true.
Proof.
  induction s as [|c s IH]; intros prev text k H; cbn [lit match_at] in H.
  - now exists EmptyString, text.
  - destruct text as [|x text]; [discriminate H|].
    apply andb_true_iff in H. destruct H as [Hx H].
    destruct (IH (Some x) text k H) as [w [rest [-> [Hw Hk]]]].
    exists (String x w), rest. repeat split.
    + cbn [lower]. unfold same_char in Hx. apply Ascii.eqb_eq in Hx.
      now rewrite Hx, Hw.
    + rewrite last_char_cons. now destruct (last_char w).
Qed.

(** X8.  Whenever "docker-compose" is detected, "docker" is detected as
    well. *)
Theorem docker_compose_implies_docker :
  forall readme_content,
    In "docker-compose" (detect_tools readme_content) ->
    In "docker" (detect_tools readme_content).
Proof.
  intros readme_content H. unfold detect_tools in H |- *.
  apply detect_loop_In in H. destruct H as [[]|[pattern [Hin Hs]]].
  assert (pattern =
          Cat Boundary
            (Cat (lit "docker")
               (Cat (OneOf [" "%char; "-"%char])
                  (Cat (lit "compose") Boundary)))) as ->.
  { unfold tool_patterns in Hin. simpl in Hin.
    repeat (destruct Hin as [Hin|Hin];
            [first [discriminate Hin | now injection Hin as <-]|]).
    contradiction. }
  apply detect_loop_In. right. exists (word "docker"). split.
  { unfold tool_patterns. simpl. tauto. }
  destruct (search_from_inv _ _ None Hs) as [before [rest [-> Hm]]].
  apply search_from_offset.
  set (prev := match last_char before with Some c => Some c | None => None end)
    in *.
  cbn [match_at] in Hm.
  destruct (xorb (word_before prev) (word_after rest)) eqn:Hb;
    [|discriminate Hm].
  destruct (match_at_lit_inv "docker" prev rest _ Hm)
    as [w [rest' [-> [Hw Hk]]]].
  destruct rest' as [|x rest']; [discriminate Hk|].
  apply andb_true_iff in Hk. destruct Hk as [Hx _].
  assert (is_word x = false) as Hnw.
  { unfold existsb, same_char in Hx. rewrite <- is_word_lower.
    destruct (Ascii.eqb_spec (lower_ascii x) (lower_ascii " ")) as [->|_];
      [reflexivity|].
    destruct (Ascii.eqb_spec (lower_ascii x) (lower_ascii "-")) as [->|_];
      [reflexivity | discriminate Hx]. }
  unfold word. cbn [match_at]. rewrite Hb.
  rewrite (match_at_lit "docker" w) by exact Hw.
  assert (word_before (last_char w) = true) as Hend
    by now rewrite (word_before_lower w "docker").
  destruct (last_char w) as [l|]; [|discriminate Hend].
  cbn [match_at word_after]. now rewrite Hend, Hnw.
Qed.

Lemma docker_compose_implies_docker_witness :
  In "docker-compose" (detect_tools "docker compose up -d")
  /\ In "docker" (detect_tools "docker compose up -d").
Proof.
  assert (In "docker-compose" (detect_tools "docker compose up -d")) as H
    by (vm_compute; tauto).
  split; [exact H|].
  exact (docker_compose_implies_docker "docker compose up -d" H).
Defined.

(** ** The section extractor *)

Lemma lstrip_idem s : lstrip (lstrip s) = lstrip s.
Proof.
  induction s as [|c s IH]; [reflexivity|]. simpl.
  destruct (isspace c) eqn:E; [exact IH|]. simpl. now rewrite E.
Qed.

Lemma rstrip_idem s : rstrip (rstrip s) = rstrip s.
Proof.
  induction s as [|c s IH]; [reflexivity|]. simpl.
  destruct (rstrip s) as [|d kept] eqn:E.
  - destruct (isspace c) eqn:Ec; [reflexivity|]. simpl. now rewrite Ec.
  - change (rstrip (String c (String d kept)))
      with (match rstrip (String d kept) with
            | EmptyString =>
                if isspace c then EmptyString else String c EmptyString
            | String x rest => String c (String x rest)
            end).
    now rewrite IH.
Qed.

Lemma lstrip_rstrip s : lstrip s = s -> lstrip (rstrip s) = rstrip s.
Proof.
  destruct s as [|c s]; [reflexivity|]. intro H.
  assert (isspace c = false) as Ec.
  { destruct (isspace c) eqn:E; [|reflexivity]. simpl in H. rewrite E in H.
    exfalso. apply (f_equal String.length) in H. simpl in H.
    assert (forall t, String.length (lstrip t) <= String.length t) as Hle.
    { clear. induction t as [|x t IH]; simpl; [lia|].
      destruct (isspace x); simpl; lia. }
    specialize (Hle s). lia. }
  cbn [rstrip]. destruct (rstrip s) as [|d kept]; rewrite ?Ec;
    cbn [lstrip]; now rewrite Ec.
Qed.

(** Trimming twice is trimming once. *)
Lemma strip_idem s : strip (strip s) = strip s.
Proof.
  unfold strip.
  rewrite (lstrip_rstrip (lstrip s)) by apply lstrip_idem.
  apply rstrip_idem.
Qed.

Lemma content_of_captured c next_siblings :
  content_of c next_siblings = flat_map (contribution c) (captured next_siblings).
Proof.
  induction next_siblings as [|sibling rest IH].
  - now destruct c.
  - cbn [captured]. destruct (name_in sibling heading_names) eqn:E.
    + now apply content_of_stop.
    + rewrite content_of_cons by exact E. simpl. now rewrite IH.
Qed.

Lemma contribution_source c sibling entry :
  In entry (contribution c sibling) ->
  name_in sibling ["p"; "pre"; "code"; "ul"] = true
  /\ exists node, entry = strip (text node).
Proof.
  destruct sibling as [name kids|s]; [|now destruct c].
  unfold contribution, name_in, existsb, li_entries.
  destruct (String.eqb name "p") eqn:Ep, (String.eqb name "pre") eqn:Epre,
           (String.eqb name "code") eqn:Ec, (String.eqb name "ul") eqn:Eu;
    destruct c; cbn [orb]; intro H;
    try contradiction;
    try (destruct H as [<-|[]]; split; [reflexivity | now eexists]);
    try (apply in_map_iff in H; destruct H as [li [<- _]];
         split; [reflexivity | now eexists]).
Qed.

Lemma bucket_entry_source soup c entry :
  In entry (bucket c (parse_soup soup)) ->
  exists heading next_siblings sibling,
    occurs heading next_siblings soup
    /\ name_in heading heading_names = true
    /\ classify (lower (text heading)) = Some c
    /\ In sibling (captured next_siblings)
    /\ In entry (contribution c sibling).
Proof.
  rewrite bucket_parse_soup. intro H. apply in_flat_map in H.
  destruct H as [[heading next_siblings] [Hfound Hentry]].
  apply find_all_siblings_spec in Hfound. destruct Hfound as [Ho Hn].
  unfold entries_under in Hentry. cbn [fst snd] in Hentry.
  destruct (classify (lower (text heading))) as [c'|] eqn:Hc;
    [|contradiction].
  destruct (category_eqb c' c) eqn:Heq; [|contradiction].
  assert (c' = c) as -> by (destruct c', c; (reflexivity || discriminate Heq)).
  rewrite content_of_captured in Hentry. apply in_flat_map in Hentry.
  destruct Hentry as [sibling [Hs He]].
  now exists heading, next_siblings, sibling.
Qed.

(** X9.  Every entry of a bucket was collected under a heading (h1..h4)
    classified into that bucket, from a sibling that follows the heading
    and comes before the next heading; that sibling is a [p], [pre], [code]
    or [ul] node.  Text that is not in such a place, the text before the
    first heading in particular, reaches no bucket. *)
Theorem bucket_entries_come_from_sections :
  forall soup c entry,
    In entry (bucket c (parse_soup soup)) ->
    exists heading next_siblings sibling,
      occurs heading next_siblings soup
      /\ name_in heading heading_names = true
      /\ classify (lower (text heading)) = Some c
      /\ In sibling (captured next_siblings)
      /\ name_in sibling ["p"; "pre"; "code"; "ul"] = true
      /\ In entry (contribution c sibling).
Proof.
  intros soup c entry H.
  destruct (bucket_entry_source soup c entry H)
    as [heading [next_siblings [sibling [Ho [Hn [Hc [Hs He]]]]]]].
  exists heading, next_siblings, sibling. repeat split; try assumption.
  now destruct (contribution_source c sibling entry He).
Qed.

Lemma bucket_entries_come_from_sections_witness :
  exists heading next_siblings sibling,
    occurs heading next_siblings Fixtures.two_setups
    /\ name_in heading heading_names = true
    /\ classify (lower (text heading)) = Some EnvironmentSetup
    /\ In sibling (captured next_siblings)
    /\ name_in sibling ["p"; "pre"; "code"; "ul"] = true
    /\ In "copy .env" (contribution EnvironmentSetup sibling).
Proof.
  apply (bucket_entries_come_from_sections Fixtures.two_setups
           EnvironmentSetup "copy .env").
  vm_compute. tauto.
Defined.

(** X10.  Every entry of every bucket is trimmed: it has no white space
    at either end. *)
Theorem bucket_entries_are_trimmed :
  forall soup c entry,
    In entry (bucket c (parse_soup soup)) -> strip entry = entry.
Proof.
  intros soup c entry H.
  destruct (bucket_entry_source soup c entry H)
    as [heading [next_siblings [sibling [_ [_ [_ [_ He]]]]]]].
  destruct (contribution_source c sibling entry He) as [_ [node ->]].
  apply strip_idem.
Qed.

Lemma bucket_entries_are_trimmed_witness :
  strip "cp .env.example .env" = "cp .env.example .env".
Proof.
  apply (bucket_entries_are_trimmed
           (Fixtures.three_sections "Git " "Docker" " cp .env.example .env"
              "make deps" "make run" "make logs")
           EnvironmentSetup "cp .env.example .env").
  vm_compute. tauto.
Defined.

Lemma classify_first c heading_text :
  (exists term, In term (terms_of c) /\ occurs_in term heading_text) ->
  (forall c' term, rank c' < rank c -> In term (terms_of c') ->
                   ~ occurs_in term heading_text) ->
  classify heading_text = Some c.
Proof.
  intros Hc Hearlier.
  assert (any_in (terms_of c) heading_text = true) as Hany
    by now apply any_in_spec.
  assert (forall c', rank c' < rank c ->
                     any_in (terms_of c') heading_text = false) as Hnone
    by (intros c' Hr; apply any_in_none; intros term; now apply Hearlier).
  pose proof (Hnone Prerequisites) as N0. pose proof (Hnone EnvironmentSetup) as N1.
  pose proof (Hnone DatabaseSetup) as N2.
  pose proof (Hnone RunningInstructions) as N3.
  cbn [terms_of] in N0, N1, N2, N3. unfold classify.
  destruct c; cbn [terms_of rank] in *.
  - now rewrite Hany.
  - rewrite N0 by lia. now rewrite Hany.
  - rewrite N0, N1 by lia. now rewrite Hany.
  - rewrite N0, N1, N2 by lia. now rewrite Hany.
  - rewrite N0, N1, N2, N3 by lia. now rewrite Hany.
Qed.

(** X11.  The chain of tests has a fixed priority: prerequisites, setup,
    database, run, IDE.  A heading whose lower-cased text contains a term
    of a category and no term of an earlier category extends the bucket of
    that category with what its loop collects, whatever terms of later
    categories it also contains, and changes no other bucket. *)
Theorem first_matching_category_wins :
  forall c setup_info heading next_siblings,
    (exists term, In term (terms_of c)
                  /\ occurs_in term (lower (text heading))) ->
    (forall c' term, rank c' < rank c -> In term (terms_of c') ->
                     ~ occurs_in term (lower (text heading))) ->
    parse_heading setup_info (heading, next_siblings) =
    extend c setup_info (content_of c next_siblings).
Proof.
  intros c setup_info heading next_siblings Hc Hearlier.
  rewrite parse_heading_classify.
  now rewrite (classify_first c _ Hc Hearlier).
Qed.

(** "Database Setup" contains a setup term and a database term: it goes
    to environment_setup. *)
Lemma first_matching_category_wins_witness :
  parse_heading empty_setup_info
    (Fixtures.h "h2" "Database Setup", [Fixtures.p " createdb app "]) =
  extend EnvironmentSetup empty_setup_info ["createdb app"].
Proof.
  apply (first_matching_category_wins EnvironmentSetup empty_setup_info
           (Fixtures.h "h2" "Database Setup") [Fixtures.p " createdb app "]).
  - exists "setup". split; [now left|]. now exists "database ", EmptyString.
  - intros c' term Hr Hin. apply not_occurs_in.
    destruct c'; simpl in Hr; try lia. simpl in Hin.
    repeat (destruct Hin as [<-|Hin]; [reflexivity|]). contradiction.
Defined.

(** X12.  A heading whose lower-cased text contains no term of any
    category leaves the setup information as it is. *)
Theorem unclassified_heading_changes_nothing :
  forall setup_info heading next_siblings,
    (forall c term, In term (terms_of c) ->
                    ~ occurs_in term (lower (text heading))) ->
    parse_heading setup_info (heading, next_siblings) = setup_info.
Proof.
  intros setup_info heading next_siblings Hnone.
  rewrite parse_heading_classify. unfold classify.
  rewrite (any_in_none prerequisites_terms) by exact (Hnone Prerequisites).
  rewrite (any_in_none setup_terms) by exact (Hnone EnvironmentSetup).
  rewrite (any_in_none database_terms) by exact (Hnone DatabaseSetup).
  rewrite (any_in_none run_terms) by exact (Hnone RunningInstructions).
  rewrite (any_in_none ide_terms) by exact (Hnone IdeSetup).
  reflexivity.
Qed.

Lemma unclassified_heading_changes_nothing_witness :
  parse_heading empty_setup_info
    (Fixtures.h "h2" "License", [Fixtures.p "MIT"]) = empty_setup_info.
Proof.
  apply (unclassified_heading_changes_nothing empty_setup_info
           (Fixtures.h "h2" "License") [Fixtures.p "MIT"]).
  intros c term Hin. apply not_occurs_in.
  destruct c; simpl in Hin;
    repeat (destruct Hin as [<-|Hin]; [reflexivity|]); contradiction.
Defined.

Lemma find_all_node_none names node next_siblings :
  (forall n sibs, occurs n sibs [node] -> name_in n names = false) ->
  find_all_node names node next_siblings = [].
Proof.
  intro Hnone.
  destruct (find_all_node names node next_siblings) as [|[n sibs] l] eqn:E;
    [reflexivity|].
  assert (In (n, sibs) (find_all_node names node next_siblings)) as Hin
    by (rewrite E; now left).
  apply find_all_node_sound in Hin.
  destruct Hin as [[-> [_ Hn]]|[Ho Hn]].
  - rewrite (Hnone node [] (occurs_here _ _ [] eq_refl)) in Hn. discriminate.
  - rewrite (Hnone n sibs (occurs_in_contents _ _ _ _ Ho)) in Hn. discriminate.
Qed.

Lemma occurs_singleton n sibs node :
  occurs n sibs [node] -> n = node \/ occurs n sibs (contents_of node).
Proof.
  intro Ho. inversion Ho as [r Hr|name kids r Ho'|other r Ho']; subst.
  - now left.
  - now right.
  - inversion Ho'.
Qed.

Lemma find_all_siblings_skip names before rest :
  (forall n sibs, occurs n sibs before -> name_in n names = false) ->
  find_all_siblings names (before ++ rest) = find_all_siblings names rest.
Proof.
  induction before as [|node before IH]; intro Hnone; [reflexivity|].
  change ((node :: before) ++ rest) with (node :: (before ++ rest)).
  cbn [find_all_siblings]. rewrite find_all_node_none.
  - apply IH. intros n sibs Ho. apply (Hnone n sibs). now apply occurs_later.
  - intros n sibs Ho. destruct (occurs_singleton n sibs node Ho) as [->|Ho'].
    + apply (Hnone node before). now constructor.
    + apply (Hnone n sibs). now apply occurs_in_contents.
Qed.

(** X13.  What stands before the first heading of a document is ignored:
    when no h1..h4 node occurs in the leading nodes, the result is that of
    the document without them. *)
Theorem content_before_first_heading_is_ignored :
  forall before rest,
    (forall n sibs, occurs n sibs before ->
                    name_in n heading_names = false) ->
    parse_soup (before ++ rest) = parse_soup rest.
Proof.
  intros before rest Hnone. unfold parse_soup.
  now rewrite (find_all_siblings_skip heading_names before rest Hnone).
Qed.

Lemma content_before_first_heading_is_ignored_witness :
  parse_soup ([Fixtures.p "install docker first"; Fixtures.nl]
              ++ Fixtures.guide) = parse_soup Fixtures.guide.
Proof.
  apply (content_before_first_heading_is_ignored
           [Fixtures.p "install docker first"; Fixtures.nl] Fixtures.guide).
  intros n sibs Ho.
  inversion Ho as [r Hr|name kids r Ho1|other r Ho1]; subst; [reflexivity| |].
  - inversion Ho1 as [r Hr|name' kids' r Ho2|other r Ho2]; subst;
      [reflexivity|]. inversion Ho2.
  - inversion Ho1 as [r Hr|name' kids' r Ho2|other r Ho2]; subst;
      [reflexivity|]. inversion Ho2.
Defined.

(** ** Dictionaries *)

Lemma lookup_dict_set {A : Type} key key' (value : A) d :
  lookup key (dict_set key' value d) =
  if String.eqb key key' then Some value else lookup key d.
Proof.
  induction d as [|[k v] rest IH]; simpl.
  - reflexivity.
  - destruct (String.eqb_spec key' k) as [->|Hk']; simpl.
    + now destruct (String.eqb key k).
    + rewrite IH. destruct (String.eqb_spec key k) as [->|Hk].
      * destruct (String.eqb_spec k key') as [<-|_];
          [now contradiction Hk' | reflexivity].
      * reflexivity.
Qed.

Lemma in_dict_set {A : Type} key (value : A) d k v :
  In (k, v) (dict_set key value d) -> (k = key /\ v = value) \/ In (k, v) d.
Proof.
  induction d as [|[k0 v0] rest IH]; simpl.
  - intros [H|[]]. injection H as <- <-. now left.
  - destruct (String.eqb_spec key k0) as [->|_]; simpl; intros [H|H].
    + injection H as <- <-. now left.
    + right. now right.
    + right. now left.
    + destruct (IH H) as [Hl|Hr]; [now left | right; now right].
Qed.

Lemma keys_dict_set {A : Type} key (value : A) d :
  keys (dict_set key value d) =
  if existsb (String.eqb key) (keys d) then keys d else keys d ++ [key].
Proof.
  unfold keys. induction d as [|[k v] rest IH]; simpl; [reflexivity|].
  destruct (String.eqb_spec key k) as [->|_]; simpl; [reflexivity|].
  rewrite IH. now destruct (existsb (String.eqb key) (map fst rest)).
Qed.

Lemma existsb_eqb_In key l : existsb (String.eqb key) l = true <-> In key l.
Proof.
  rewrite existsb_exists. split.
  - intros [x [Hin Hx]]. apply String.eqb_eq in Hx. now subst.
  - intro H. exists key. split; [exact H | apply String.eqb_refl].
Qed.

Lemma NoDup_keys_dict_set {A : Type} key (value : A) d :
  NoDup (keys d) -> NoDup (keys (dict_set key value d)).
Proof.
  intro H. rewrite keys_dict_set.
  destruct (existsb (String.eqb key) (keys d)) eqn:E; [exact H|].
  apply NoDup_app; [exact H | constructor; [intros [] | constructor] |].
  intros x Hx [<-|[]]. apply existsb_eqb_In in Hx. congruence.
Qed.

Lemma length_dict_set {A : Type} key (value : A) d :
  length (dict_set key value d) <= S (length d).
Proof.
  induction d as [|[k v] rest IH]; simpl; [lia|].
  destruct (String.eqb key k); simpl; lia.
Qed.

Lemma lookup_In {A : Type} key (value : A) d :
  NoDup (keys d) -> In (key, value) d -> lookup key d = Some value.
Proof.
  unfold keys. induction d as [|[k v] rest IH]; simpl; intros Hd H;
    [contradiction|]. destruct H as [H|H].
  - injection H as -> ->. now rewrite String.eqb_refl.
  - inversion Hd as [|x xs Hnot Hrest]; subst.
    destruct (String.eqb_spec key k) as [->|_]; [|now apply IH].
    exfalso. apply Hnot. apply in_map_iff. now exists (k, value).
Qed.

Lemma find_app {A : Type} (f : A -> bool) l1 l2 :
  find f (l1 ++ l2) =
  match find f l1 with Some x => Some x | None => find f l2 end.
Proof.
  induction l1 as [|a l1 IH]; simpl; [reflexivity|].
  now destruct (f a).
Qed.

(** ** [analyze_all_projects] *)

Lemma analyze_loop_NoDup markdown_soup projects project_info :
  NoDup (keys project_info) ->
  NoDup (keys (analyze_loop markdown_soup projects project_info)).
Proof.
  revert project_info. induction projects as [|project rest IH];
    intros project_info H; simpl; [exact H|].
  apply IH. now apply NoDup_keys_dict_set.
Qed.

Lemma analyze_loop_lookup markdown_soup projects project_info name :
  lookup name (analyze_loop markdown_soup projects project_info) =
  match project_named name (rev projects) with
  | Some project =>
      Some (parse_readme markdown_soup (Project.readme_content project))
  | None => lookup name project_info
  end.
Proof.
  revert project_info. induction projects as [|project rest IH];
    intro project_info; simpl; [reflexivity|].
  rewrite IH. unfold project_named. rewrite find_app. simpl.
  destruct (find _ (rev rest)); [reflexivity|].
  rewrite lookup_dict_set. rewrite String.eqb_sym.
  now destruct (String.eqb (Project.name project) name).
Qed.

Lemma dict_set_new {A : Type} key (value : A) d :
  ~ In key (keys d) -> dict_set key value d = d ++ [(key, value)].
Proof.
  unfold keys. induction d as [|[k v] rest IH]; simpl; intro H;
    [reflexivity|].
  destruct (String.eqb_spec key k) as [->|_]; [exfalso; apply H; now left|].
  rewrite IH; [reflexivity|]. intro Hin. apply H. now right.
Qed.

Lemma analyze_loop_distinct markdown_soup projects project_info :
  NoDup (keys project_info ++ map Project.name projects) ->
  analyze_loop markdown_soup projects project_info =
  project_info
  ++ map (fun project =>
            (Project.name project,
             parse_readme markdown_soup (Project.readme_content project)))
         projects.
Proof.
  revert project_info. induction projects as [|project rest IH];
    intros project_info H; simpl.
  - now rewrite app_nil_r.
  - assert (~ In (Project.name project) (keys project_info)) as Hnew.
    { intro Hin. apply NoDup_remove_2 in H. apply H. apply in_or_app.
      now left. }
    rewrite dict_set_new by exact Hnew. rewrite IH.
    + now rewrite <- app_assoc.
    + unfold keys. rewrite map_app. simpl. rewrite <- app_assoc. exact H.
Qed.

(** X14.  The analysis is keyed by project name: a name appears once,
    and what is stored under it is the interpretation of the README of the
    last project of that name.  With distinct names it is the list of the
    projects, in order, each with the interpretation of its README. *)
Theorem analysis_is_keyed_by_name :
  forall markdown_soup projects,
    NoDup (keys (analyze_all_projects markdown_soup projects))
    /\ (forall name,
           lookup name (analyze_all_projects markdown_soup projects) =
           option_map
             (fun project =>
                parse_readme markdown_soup (Project.readme_content project))
             (project_named name (rev projects)))
    /\ (NoDup (map Project.name projects) ->
        analyze_all_projects markdown_soup projects =
        map (fun project =>
               (Project.name project,
                parse_readme markdown_soup (Project.readme_content project)))
            projects).
Proof.
  intros markdown_soup projects. unfold analyze_all_projects.
  split; [|split].
  - apply analyze_loop_NoDup. constructor.
  - intro name. rewrite analyze_loop_lookup.
    now destruct (project_named name (rev projects)).
  - intro H. now rewrite analyze_loop_distinct.
Qed.

Lemma analysis_is_keyed_by_name_witness :
  analyze_all_projects Samples.plain Samples.projects =
  map (fun project =>
         (Project.name project,
          parse_readme Samples.plain (Project.readme_content project)))
      Samples.projects.
Proof.
  destruct (analysis_is_keyed_by_name Samples.plain Samples.projects)
    as [_ [_ H]].
  apply H. simpl. repeat (constructor; [simpl; intuition discriminate|]).
  constructor.
Defined.

Lemma analyze_loop_entries markdown_soup projects project_info name info :
  In (name, info) (analyze_loop markdown_soup projects project_info) ->
  In (name, info) project_info
  \/ exists readme, info = parse_readme markdown_soup readme.
Proof.
  revert project_info. induction projects as [|project rest IH];
    intros project_info H; simpl in H; [now left|].
  destruct (IH _ H) as [Hin|Hr]; [|now right].
  apply in_dict_set in Hin. destruct Hin as [[_ ->]|Hin]; [|now left].
  right. now eexists.
Qed.

Lemma analyze_loop_length markdown_soup projects project_info :
  length (analyze_loop markdown_soup projects project_info)
  <= length project_info + length projects.
Proof.
  revert project_info. induction projects as [|project rest IH];
    intro project_info; simpl; [lia|].
  specialize (IH (dict_set (Project.name project)
                    (parse_readme markdown_soup
                       (Project.readme_content project)) project_info)).
  pose proof (length_dict_set (Project.name project)
                (parse_readme markdown_soup (Project.readme_content project))
                project_info).
  lia.
Qed.

(** ** Tool frequencies *)

Lemma detect_tools_NoDup readme_content : NoDup (detect_tools readme_content).
Proof.
  unfold detect_tools. rewrite detect_loop_filter. apply NoDup_map_filter.
  change (map fst tool_patterns)
    with ["java"; "maven"; "gradle"; "node"; "npm"; "python3"; "docker";
          "docker-compose"; "git"; "mongodb"; "postgresql"; "mysql";
          "redis"; "vscode"; "intellij-idea"].
  repeat (constructor; [simpl; intuition discriminate|]). constructor.
Qed.


Lemma get_count_dict_set tool key count tool_frequency :
  get_count tool (dict_set key count tool_frequency) =
  if String.eqb tool key then count else get_count tool tool_frequency.
Proof.
  unfold get_count. rewrite lookup_dict_set.
  now destruct (String.eqb tool key).
Qed.

Lemma count_tools_get tool detected :
  NoDup detected ->
  forall tool_frequency,
    get_count tool (count_tools detected tool_frequency) =
    get_count tool tool_frequency
    + (if existsb (String.eqb tool) detected then 1 else 0).
Proof.
  induction 1 as [|x rest Hx Hrest IH]; intro tool_frequency; simpl; [lia|].
  rewrite IH, get_count_dict_set.
  destruct (String.eqb_spec tool x) as [->|_]; simpl; [|reflexivity].
  assert (existsb (String.eqb x) rest = false) as ->.
  { destruct (existsb (String.eqb x) rest) eqn:E; [|reflexivity].
    apply existsb_eqb_In in E. now contradiction Hx. }
  lia.
Qed.

Lemma count_projects_get tool all_projects_info :
  (forall entry, In entry all_projects_info ->
                 NoDup (detected_tools (snd entry))) ->
  forall tool_frequency,
    get_count tool (count_projects all_projects_info tool_frequency) =
    get_count tool tool_frequency
    + length (filter (fun entry =>
                        existsb (String.eqb tool) (detected_tools (snd entry)))
                     all_projects_info).
Proof.
  induction all_projects_info as [|[name info] rest IH];
    intros Hnd tool_frequency; simpl; [lia|].
  rewrite IH by (intros e He; apply Hnd; now right).
  rewrite count_tools_get by exact (Hnd (name, info) (or_introl eq_refl)).
  destruct (existsb (String.eqb tool) (detected_tools info)); simpl; lia.
Qed.

Lemma count_tools_well_counted detected tool_frequency :
  NoDup (keys tool_frequency) ->
  (forall tool count, In (tool, count) tool_frequency -> 1 <= count) ->
  NoDup (keys (count_tools detected tool_frequency))
  /\ (forall tool count,
         In (tool, count) (count_tools detected tool_frequency) -> 1 <= count)
  /\ (forall tool,
         In tool (keys (count_tools detected tool_frequency)) ->
         In tool (keys tool_frequency) \/ In tool detected).
Proof.
  revert tool_frequency. induction detected as [|x rest IH];
    intros tool_frequency Hnd Hpos; simpl.
  - repeat split; try assumption. intros tool H. now left.
  - destruct (IH (dict_set x (get_count x tool_frequency + 1) tool_frequency))
      as [H1 [H2 H3]].
    + now apply NoDup_keys_dict_set.
    + intros tool count Hin. apply in_dict_set in Hin.
      destruct Hin as [[_ ->]|Hin]; [lia | now apply (Hpos tool)].
    + repeat split; try assumption. intros tool Hin.
      destruct (H3 tool Hin) as [Hk|Hr]; [|right; now right].
      rewrite keys_dict_set in Hk.
      destruct (existsb (String.eqb x) (keys tool_frequency));
        [now left|]. apply in_app_or in Hk.
      destruct Hk as [Hk|[<-|[]]]; [now left | right; now left].
Qed.

Lemma count_projects_well_counted all_projects_info tool_frequency :
  NoDup (keys tool_frequency) ->
  (forall tool count, In (tool, count) tool_frequency -> 1 <= count) ->
  NoDup (keys (count_projects all_projects_info tool_frequency))
  /\ (forall tool count,
         In (tool, count) (count_projects all_projects_info tool_frequency) ->
         1 <= count)
  /\ (forall tool,
         In tool (keys (count_projects all_projects_info tool_frequency)) ->
         In tool (keys tool_frequency)
         \/ exists entry, In entry all_projects_info
                          /\ In tool (detected_tools (snd entry))).
Proof.
  revert tool_frequency. induction all_projects_info as [|[name info] rest IH];
    intros tool_frequency Hnd Hpos; simpl.
  - repeat split; try assumption. intros tool H. now left.
  - destruct (count_tools_well_counted (detected_tools info) tool_frequency
                Hnd Hpos) as [C1 [C2 C3]].
    destruct (IH _ C1 C2) as [H1 [H2 H3]].
    repeat split; try assumption. intros tool Hin.
    destruct (H3 tool Hin) as [Hk|[entry [He Ht]]].
    + destruct (C3 tool Hk) as [Hk'|Hd]; [now left|].
      right. exists (name, info). split; [now left | exact Hd].
    + right. exists entry. split; [now right | exact Ht].
Qed.

Lemma insert_by_count_perm item items :
  Permutation (insert_by_count item items) (item :: items).
Proof.
  induction items as [|other rest IH]; simpl; [reflexivity|].
  destruct (snd other <=? snd item)%nat; [reflexivity|].
  rewrite IH. apply perm_swap.
Qed.

Lemma sorted_by_count_perm items : Permutation (sorted_by_count items) items.
Proof.
  induction items as [|item rest IH]; simpl; [reflexivity|].
  rewrite insert_by_count_perm. now constructor.
Qed.

Lemma insert_by_count_sorted item items :
  StronglySorted (fun a b => snd b <= snd a) items ->
  StronglySorted (fun a b => snd b <= snd a) (insert_by_count item items).
Proof.
  induction 1 as [|other rest Hrest IH Hall]; simpl.
  - repeat constructor.
  - destruct (Nat.leb_spec (snd other) (snd item)) as [Hle|Hgt].
    + constructor; [now constructor|]. constructor; [exact Hle|].
      eapply Forall_impl; [|exact Hall]. simpl. intros a Ha. lia.
    + constructor; [exact IH|].
      eapply Permutation_Forall;
        [symmetry; apply insert_by_count_perm|].
      constructor; [lia | exact Hall].
Qed.

Lemma sorted_by_count_sorted items :
  StronglySorted (fun a b => snd b <= snd a) (sorted_by_count items).
Proof.
  induction items as [|item rest IH]; simpl; [constructor|].
  now apply insert_by_count_sorted.
Qed.

Lemma analysis_entries_NoDup markdown_soup projects entry :
  In entry (analyze_all_projects markdown_soup projects) ->
  NoDup (detected_tools (snd entry)).
Proof.
  destruct entry as [name info]. intro H.
  apply analyze_loop_entries in H. destruct H as [[]|[readme ->]].
  apply detect_tools_NoDup.
Qed.

(** X15.  In the table of recommended tools the number beside a tool is
    the number of analysed projects whose README mentions it; it is at
    least one and at most the number of projects, so the share of projects
    that is printed for it lies between 0 and 100 per cent and the
    division by the number of projects is never a division by zero. *)
Theorem tool_count_is_number_of_projects :
  forall markdown_soup projects tool count,
    In (tool, count) (recommended_tools markdown_soup projects) ->
    count = length (filter (fun entry =>
                              existsb (String.eqb tool)
                                      (detected_tools (snd entry)))
                           (analyze_all_projects markdown_soup projects))
    /\ 1 <= count <= length projects.
Proof.
  intros markdown_soup projects tool count H. unfold recommended_tools in H.
  apply (Permutation_in _ (sorted_by_count_perm _)) in H.
  destruct (count_projects_well_counted
              (analyze_all_projects markdown_soup projects) [])
    as [Hnd [Hpos _]]; [constructor | intros t c [] |].
  pose proof (lookup_In tool count _ Hnd H) as Hl.
  pose proof (count_projects_get tool
                (analyze_all_projects markdown_soup projects)
                (analysis_entries_NoDup markdown_soup projects) []) as Hc.
  unfold get_count at 1 in Hc. rewrite Hl in Hc.
  change (get_count tool []) with 0 in Hc. simpl in Hc.
  split; [exact Hc|]. split; [now apply (Hpos tool)|].
  rewrite Hc.
  pose proof (filter_length_le
                (fun entry => existsb (String.eqb tool)
                                      (detected_tools (snd entry)))
                (analyze_all_projects markdown_soup projects)).
  pose proof (analyze_loop_length markdown_soup projects []).
  unfold analyze_all_projects in *. simpl in *. lia.
Qed.

Lemma tool_count_is_number_of_projects_witness :
  2 = length (filter (fun entry =>
                        existsb (String.eqb "docker")
                                (detected_tools (snd entry)))
                     (analyze_all_projects Samples.plain Samples.projects))
  /\ 1 <= 2 <= length Samples.projects.
Proof.
  apply (tool_count_is_number_of_projects Samples.plain Samples.projects
           "docker" 2).
  vm_compute. tauto.
Defined.

(** X16.  The recommended tools are listed by decreasing number of
    projects, each tool once, and they are the tools counted, no more and
    no fewer. *)
Theorem recommended_tools_most_used_first :
  forall markdown_soup projects,
    StronglySorted (fun a b => snd b <= snd a)
                   (recommended_tools markdown_soup projects)
    /\ NoDup (map fst (recommended_tools markdown_soup projects))
    /\ Permutation
         (recommended_tools markdown_soup projects)
         (count_projects (analyze_all_projects markdown_soup projects) []).
Proof.
  intros markdown_soup projects. unfold recommended_tools.
  split; [apply sorted_by_count_sorted|]. split.
  - destruct (count_projects_well_counted
                (analyze_all_projects markdown_soup projects) [])
      as [Hnd _]; [constructor | intros t c [] |].
    eapply Permutation_NoDup; [|exact Hnd].
    unfold keys. apply Permutation_map. symmetry.
    apply sorted_by_count_perm.
  - apply sorted_by_count_perm.
Qed.

Lemma detected_tool_is_registered readme_content tool :
  In tool (detect_tools readme_content) -> lookup tool tools_cache <> None.
Proof.
  intro H. unfold detect_tools in H. apply detect_loop_In in H.
  destruct H as [[]|[pattern [Hin _]]].
  apply (in_map fst) in Hin. simpl fst in Hin.
  change (map fst tool_patterns)
    with ["java"; "maven"; "gradle"; "node"; "npm"; "python3"; "docker";
          "docker-compose"; "git"; "mongodb"; "postgresql"; "mysql";
          "redis"; "vscode"; "intellij-idea"] in Hin.
  simpl in Hin.
  repeat (destruct Hin as [<-|Hin]; [intro E; vm_compute in E; discriminate E|]).
  contradiction.
Qed.

Lemma recommended_tool_is_registered markdown_soup projects tool count :
  In (tool, count) (recommended_tools markdown_soup projects) ->
  lookup tool tools_cache <> None.
Proof.
  intro H. unfold recommended_tools in H.
  apply (Permutation_in _ (sorted_by_count_perm _)) in H.
  destruct (count_projects_well_counted
              (analyze_all_projects markdown_soup projects) [])
    as [_ [_ Hkeys]]; [constructor | intros t c [] |].
  assert (In tool (keys (count_projects
                           (analyze_all_projects markdown_soup projects) [])))
    as Hk by (unfold keys; apply in_map_iff; now exists (tool, count)).
  destruct (Hkeys tool Hk) as [[]|[[name info] [He Ht]]].
  apply analyze_loop_entries in He. destruct He as [[]|[readme ->]].
  exact (detected_tool_is_registered readme tool Ht).
Qed.

Lemma report_tools_trace (World : Type)
      (subprocess_run : string -> World -> RunOutcome * World) listed :
  (forall tool count, In (tool, count) listed ->
                      lookup tool tools_cache <> None) ->
  forall st,
    trace (snd (report_tools subprocess_run listed st)) =
      trace st ++ map Verification (map fst listed)
    /\ map fst (fst (report_tools subprocess_run listed st)) = listed.
Proof.
  induction listed as [|[tool count] rest IH]; intros Hknown st; simpl.
  - now rewrite app_nil_r.
  - assert (trace (snd (check_tool_installed subprocess_run tools_cache
                          tool st)) = trace st ++ [Verification tool]) as Hc.
    { unfold check_tool_installed, run.
      destruct (lookup tool tools_cache) as [info|] eqn:E.
      - now destruct (subprocess_run (verification info) (world st))
          as [[rc|] w].
      - now contradiction (Hknown tool count (or_introl eq_refl)). }
    destruct (check_tool_installed subprocess_run tools_cache tool st)
      as [installed st1]. cbn [snd] in Hc.
    destruct (IH (fun t c H => Hknown t c (or_intror H)) st1) as [Ht Hl].
    destruct (report_tools subprocess_run rest st1) as [lines st2].
    cbn [fst snd] in *. split.
    + now rewrite Ht, Hc, <- app_assoc.
    + simpl. now rewrite Hl.
Qed.

(** X17.  "List recommended tools" runs the verification command of
    every listed tool once, in the order of the list, and nothing else: it
    never installs anything.  It reports one line for each listed tool. *)
Theorem listing_recommended_tools_only_verifies :
  forall (World : Type) (subprocess_run : string -> World -> RunOutcome * World)
         markdown_soup projects (st : Machine World),
    trace (snd (list_recommended_tools subprocess_run markdown_soup
                  projects st)) =
      trace st
      ++ map Verification
             (map fst (recommended_tools markdown_soup projects))
    /\ map fst (fst (list_recommended_tools subprocess_run markdown_soup
                       projects st)) =
       recommended_tools markdown_soup projects.
Proof.
  intros World subprocess_run markdown_soup projects st.
  unfold list_recommended_tools. apply report_tools_trace.
  intros tool count H.
  exact (recommended_tool_is_registered markdown_soup projects tool count H).
Qed.

(** ** The printed guide *)

Lemma filter_item_lines items :
  filter (startswith "- ") (item_lines items) = item_lines items.
Proof.
  unfold item_lines. induction items as [|item rest IH]; [reflexivity|].
  cbn [map filter].
  change (startswith "- " ("- " ++ item)%string) with true.
  cbn iota. now rewrite IH.
Qed.

Lemma filter_title title lines :
  filter (startswith "- ") ((newline ++ title)%string :: lines) =
  filter (startswith "- ") lines.
Proof. reflexivity. Qed.

(** X18.  The guide shows every collected entry exactly once, as a line
    "- entry", in the order prerequisites, environment setup, database
    setup, running instructions, IDE setup; its other lines are titles. *)
Theorem guide_lists_every_entry :
  forall project_name setup_info,
    filter (startswith "- ") (setup_guide project_name setup_info) =
    item_lines (prerequisites setup_info ++ environment_setup setup_info
                ++ database_setup setup_info
                ++ running_instructions setup_info ++ ide_setup setup_info).
Proof.
  intros project_name setup_info. unfold setup_guide.
  destruct (database_setup setup_info) as [|d ds];
    destruct (ide_setup setup_info) as [|i others];
    rewrite !filter_app, ?filter_title, !filter_item_lines;
    unfold item_lines; rewrite !map_app; reflexivity.
Qed.

Lemma not_item_line title item :
  (newline ++ title)%string <> ("- " ++ item)%string.
Proof. discriminate. Qed.

Lemma title_not_in_items title items :
  ~ In (newline ++ title)%string (item_lines items).
Proof.
  unfold item_lines. intro H. apply in_map_iff in H.
  destruct H as [item [H _]]. discriminate H.
Qed.

(** X19.  The titles "Database Setup:" and "IDE Setup:" are printed only
    when there is something under them: each is in the guide exactly when
    its bucket is not empty. *)
Theorem optional_sections_only_when_filled :
  forall project_name setup_info,
    (In (newline ++ "Database Setup:")%string
        (setup_guide project_name setup_info)
     <-> database_setup setup_info <> [])
    /\ (In (newline ++ "IDE Setup:")%string
           (setup_guide project_name setup_info)
        <-> ide_setup setup_info <> []).
Proof.
  intros project_name setup_info. unfold setup_guide. split; split.
  - intro H. repeat (apply in_app_or in H; destruct H as [H|H]).
    + simpl in H. destruct H as [H|[H|[H|[]]]]; discriminate H.
    + destruct H as [H|[]]. discriminate H.
    + now apply title_not_in_items in H.
    + destruct H as [H|[]]. discriminate H.
    + now apply title_not_in_items in H.
    + destruct (database_setup setup_info); [contradiction | discriminate].
    + destruct H as [H|[]]. discriminate H.
    + now apply title_not_in_items in H.
    + destruct (ide_setup setup_info) as [|i l]; [contradiction|].
      destruct H as [H|H]; [discriminate H|].
      now apply title_not_in_items in H.
  - intro H. do 5 (apply in_or_app; right). apply in_or_app. left.
    destruct (database_setup setup_info); [now contradiction H | now left].
  - intro H. repeat (apply in_app_or in H; destruct H as [H|H]).
    + simpl in H. destruct H as [H|[H|[H|[]]]]; discriminate H.
    + destruct H as [H|[]]. discriminate H.
    + now apply title_not_in_items in H.
    + destruct H as [H|[]]. discriminate H.
    + now apply title_not_in_items in H.
    + destruct (database_setup setup_info) as [|i l]; [contradiction|].
      destruct H as [H|H]; [discriminate H|].
      now apply title_not_in_items in H.
    + destruct H as [H|[]]. discriminate H.
    + now apply title_not_in_items in H.
    + destruct (ide_setup setup_info); [contradiction | discriminate].
  - intro H. do 8 (apply in_or_app; right).
    destruct (ide_setup setup_info); [now contradiction H | now left].
Qed.

(** ** [setup_environment_for_project] *)

Lemma find_all_false {A : Type} (f : A -> bool) l :
  (forall x, In x l -> f x = false) -> find f l = None.
Proof.
  induction l as [|a l IH]; intro H; [reflexivity|]. simpl.
  rewrite (H a (or_introl eq_refl)). apply IH. intros x Hx. apply H.
  now right.
Qed.

(** X20.  Asked for a name that no known project has, the set-up prints
    that the project is not found and stops: no command is run and the
    list of projects stays as it was. *)
Theorem unknown_project_runs_nothing :
  forall (World : Type) (subprocess_run : string -> World -> RunOutcome * World)
         get_contents b64decode_utf8 markdown_soup fuel project_name
         projects (st : Machine World),
    projects <> [] ->
    (forall project, In project projects ->
                     Project.name project <> project_name) ->
    setup_environment_for_project subprocess_run get_contents b64decode_utf8
      markdown_soup fuel project_name projects st =
    Some {| projects_after := projects; machine_after := st;
            printed := [("Project " ++ project_name ++ " not found")%string] |}.
Proof.
  intros World subprocess_run get_contents b64decode_utf8 markdown_soup fuel
         project_name projects st Hne Hnone.
  unfold setup_environment_for_project.
  destruct projects as [|first rest]; [now contradiction Hne|].
  assert (project_named project_name (first :: rest) = None) as ->.
  { unfold project_named. apply find_all_false. intros project Hin.
    apply String.eqb_neq. now apply Hnone. }
  reflexivity.
Qed.

Lemma unknown_project_runs_nothing_witness :
  setup_environment_for_project (Fixtures.host []) Fixtures.repo
    Fixtures.decoded Samples.plain 3 "billing" Samples.projects
    (Fixtures.machine []) =
  Some {| projects_after := Samples.projects;
          machine_after := Fixtures.machine [];
          printed := ["Project billing not found"] |}.
Proof.
  apply (unknown_project_runs_nothing (list string) (Fixtures.host [])
           Fixtures.repo Fixtures.decoded Samples.plain 3 "billing"
           Samples.projects (Fixtures.machine [])).
  - discriminate.
  - intros project Hin. simpl in Hin.
    repeat (destruct Hin as [<-|Hin]; [discriminate|]). contradiction.
Defined.

(** X21.  For a known project the set-up works from the README of the
    first project of that name: the verification command of every tool
    detected in the raw README text is run, an installation command is run
    only for a detected tool or for a tool that one of them requires, and
    the guide printed is that of the interpreted README. *)
Theorem setup_checks_the_detected_tools :
  forall (World : Type) (subprocess_run : string -> World -> RunOutcome * World)
         get_contents b64decode_utf8 markdown_soup fuel project_name
         projects project (st : Machine World),
    projects <> [] ->
    project_named project_name projects = Some project ->
    exists result events,
      setup_environment_for_project subprocess_run get_contents b64decode_utf8
        markdown_soup fuel project_name projects st = Some result
      /\ projects_after result = projects
      /\ printed result =
         setup_guide project_name
           (parse_readme markdown_soup (Project.readme_content project))
      /\ trace (machine_after result) = trace st ++ events
      /\ (forall tool,
             In tool (detect_tools (Project.readme_content project)) ->
             In (Verification tool) events)
      /\ (forall x,
             In (Installation x) events ->
             exists tool,
               In tool (detect_tools (Project.readme_content project))
               /\ requires tools_cache tool x).
Proof.
  intros World subprocess_run get_contents b64decode_utf8 markdown_soup fuel
         project_name projects project st Hne Hfound.
  unfold setup_environment_for_project.
  destruct projects as [|first rest]; [now contradiction Hne|].
  rewrite Hfound.
  destruct (install_detected_tools_trace World subprocess_run tools_cache fuel
              (detect_tools (Project.readme_content project)) st)
    as [events [Htrace [Hverified Hinstalled]]].
  eexists. exists events. split; [reflexivity|]. cbn.
  repeat split; try assumption.
  intros tool Hin. apply Hverified; [exact Hin|].
  exact (detected_tool_is_registered _ tool Hin).
Qed.

Lemma setup_checks_the_detected_tools_witness :
  exists result events,
    setup_environment_for_project (Fixtures.host []) Fixtures.repo
      Fixtures.decoded Samples.plain 3 "web" Samples.projects
      (Fixtures.machine ["docker"]) = Some result
    /\ projects_after result = Samples.projects
    /\ printed result =
       setup_guide "web"
         (parse_readme Samples.plain
            (Project.readme_content
               (Samples.project "web"
                  "Install Node and npm, then docker build")))
    /\ trace (machine_after result) = [] ++ events
    /\ (forall tool,
           In tool (detect_tools
                      (Project.readme_content
                         (Samples.project "web"
                            "Install Node and npm, then docker build"))) ->
           In (Verification tool) events)
    /\ (forall x,
           In (Installation x) events ->
           exists tool,
             In tool (detect_tools
                        (Project.readme_content
                           (Samples.project "web"
                              "Install Node and npm, then docker build")))
             /\ requires tools_cache tool x).
Proof.
  apply (setup_checks_the_detected_tools (list string) (Fixtures.host [])
           Fixtures.repo Fixtures.decoded Samples.plain 3 "web"
           Samples.projects
           (Samples.project "web" "Install Node and npm, then docker build")
           (Fixtures.machine ["docker"])).
  - discriminate.
  - reflexivity.
Defined.

(** ** [main] *)

(** X22.  [main] starts at most two sessions.  With both environment
    variables set and not empty, the first session uses them and the input
    is not read for credentials.  If the first session returns, or raises
    and the answer to the retry question is not "y" (in either case,
    blanks around it aside), there is no other session; if the answer is
    "y", the second session uses the two lines typed next, not the
    environment, and [main] ends whatever it does. *)
Theorem main_retries_at_most_once :
  forall session GITHUB_TOKEN GITHUB_REPO stdin,
    length (fst (main session GITHUB_TOKEN GITHUB_REPO stdin)) <= 2
    /\ forall token repo,
        GITHUB_TOKEN = Some token -> token <> EmptyString ->
        GITHUB_REPO = Some repo -> repo <> EmptyString ->
        (fst (session token repo stdin) = true ->
         main session GITHUB_TOKEN GITHUB_REPO stdin
           = ([(token, repo)], Finished))
        /\ (forall retry rest,
               session token repo stdin = (false, retry :: rest) ->
               strip (lower retry) <> "y" ->
               main session GITHUB_TOKEN GITHUB_REPO stdin
                 = ([(token, repo)], Finished))
        /\ (forall retry token' repo' rest,
               session token repo stdin
                 = (false, retry :: token' :: repo' :: rest) ->
               strip (lower retry) = "y" ->
               main session GITHUB_TOKEN GITHUB_REPO stdin
                 = ([(token, repo); (token', repo')], Finished)).
Proof.
  intros session GITHUB_TOKEN GITHUB_REPO stdin. split.
  - unfold main.
    destruct (from_environment GITHUB_TOKEN stdin) as [[t s1]|]; [|simpl; lia].
    destruct (from_environment GITHUB_REPO s1) as [[r s2]|]; [|simpl; lia].
    destruct (session t r s2) as [[|] s3]; [simpl; lia|].
    destruct (input s3) as [[retry s4]|]; [|simpl; lia].
    destruct (String.eqb (strip (lower retry)) "y"); [|simpl; lia].
    destruct (input s4) as [[t' s5]|]; [|simpl; lia].
    destruct (input s5) as [[r' s6]|]; [|simpl; lia].
    destruct (session t' r' s6). simpl. lia.
  - intros token repo -> Ht -> Hr. unfold main.
    destruct token as [|tc token]; [now contradiction Ht|].
    destruct repo as [|rc repo]; [now contradiction Hr|].
    cbn [from_environment]. repeat split.
    + intro Hok. destruct (session _ _ stdin) as [ok s3]. simpl in Hok.
      now subst ok.
    + intros retry rest Hs Hno. rewrite Hs. cbn [input].
      apply String.eqb_neq in Hno. now rewrite Hno.
    + intros retry token' repo' rest Hs Hy. rewrite Hs. cbn [input].
      apply String.eqb_eq in Hy. rewrite Hy.
      now destruct (session token' repo' rest).
Qed.

Lemma main_retries_at_most_once_witness :
  main Samples.refused (Some "token") (Some "me/repo")
       [" Y "; "other"; "me/fork"]
  = ([("token", "me/repo"); ("other", "me/fork")], Finished).
Proof.
  destruct (main_retries_at_most_once Samples.refused (Some "token")
              (Some "me/repo") [" Y "; "other"; "me/fork"]) as [_ H].
  destruct (H "token" "me/repo" eq_refl ltac:(discriminate) eq_refl
              ltac:(discriminate)) as [_ [_ Hretry]].
  exact (Hretry " Y " "other" "me/fork" [] eq_refl eq_refl).
Defined.

(** ** The registry and the recursion of [install_tool] *)

(** X23.  In the registry of the agent every listed dependency is itself
    a registered tool, and the chains of dependencies are short: with a
    recursion depth of three [install_tool] returns [True] or [False] for
    every tool name, on every host. *)
Theorem registry_dependencies_resolve :
  (forall tool info deps dependency,
      lookup tool tools_cache = Some info ->
      dependencies info = Some deps ->
      In dependency deps ->
      lookup dependency tools_cache <> None)
  /\ forall (World : Type)
            (subprocess_run : string -> World -> RunOutcome * World)
            fuel tool (st : Machine World),
      fst (install_tool subprocess_run tools_cache (3 + fuel) tool st) = Some true
      \/ fst (install_tool subprocess_run tools_cache (3 + fuel) tool st)
         = Some false.
Proof.
  split.
  - intros tool info deps dependency Hl Hd Hin.
    destruct (tools_with_dependencies tool info deps Hl Hd)
      as [[_ ->]|[_ ->]]; destruct Hin as [<-|[]];
      intro E; vm_compute in E; discriminate E.
  - intros World subprocess_run fuel tool st.
    pose proof (install_tool_returns World subprocess_run fuel tool st) as H.
    destruct (fst (install_tool subprocess_run tools_cache (3 + fuel) tool st))
      as [[|]|]; [now left | now right | now contradiction H].
Qed.

Lemma registry_dependencies_resolve_witness :
  lookup "node" tools_cache <> None.
Proof.
  destruct registry_dependencies_resolve as [H _].
  apply (H "npm"
           (match lookup "npm" tools_cache with
            | Some npm_info => npm_info
            | None => Build_ToolInfo EmptyString EmptyString None
            end) ["node"] "node").
  - reflexivity.
  - reflexivity.
  - simpl. tauto.
Defined.
